(** * imagecashletter: the File container (file.go)

    A shallow embedding of [file.go]: the [File] document, the control-total
    builder [Create], the structural validator [Validate] with
    [CashLetterIDUnique], the record-type pass [setRecordTypes] and the JSON
    adapter [FileFromJSON].

    The record types of the package that live in other files (headers,
    details, addenda, controls) and their methods are taken as parameters
    through two type classes; [encoding/json] is a third one. *)

From Stdlib Require Import ZArith List String Ascii Bool Lia DecimalString.
From Stdlib Require Import Permutation.
Import ListNotations.
Local Open Scope Z_scope.
Local Open Scope string_scope.

Set Implicit Arguments.

(** ** Go's [int]

    [int] is the 64-bit signed integer of the usual targets.  Values are
    kept in [Z]; every addition of the source goes through [int_add], which
    wraps around the way the machine does. *)

Definition int_modulus : Z := 2 ^ 64.
Definition int_half : Z := 2 ^ 63.
Definition int_min : Z := - int_half.
Definition int_max : Z := int_half - 1.

Definition wrap (z : Z) : Z := (z + int_half) mod int_modulus - int_half.

Definition int_add (a b : Z) : Z := wrap (a + b).

(** [len] of a slice: never negative, and a slice that exists has a length
    that fits [int]. *)
Definition len {A : Type} (s : list A) : Z := Z.of_nat (List.length s).

(** [strconv.Itoa] *)
Definition Itoa (i : Z) : string := NilZero.string_of_int (Z.to_int i).

(** [fmt.Sprintf] for the verbs the code of file.go formats with: [%s] and
    [%v], the operands given already in their string form.  A verb without
    operand prints the way [fmt] reports it; any other character is
    copied. *)
Fixpoint Sprintf (format : string) (operands : list string) : string :=
  match format with
  | EmptyString => EmptyString
  | String c EmptyString => String c EmptyString
  | String c (String v rest as tail) =>
      if (Ascii.eqb c "%" && (Ascii.eqb v "s" || Ascii.eqb v "v"))%bool then
        match operands with
        | o :: operands' => o ++ Sprintf rest operands'
        | [] => "%!" ++ String v "(MISSING)" ++ Sprintf rest []
        end
      else String c (Sprintf tail operands)
  end.

(** ** Errors *)

(** [FileError] is an error describing issues validating a file *)
Record FileError : Type := mkFileError {
  FieldName : string;
  Value : string;
  Msg : string
}.

Definition FileError_Error (e : FileError) : string :=
  Sprintf "%s %s" [FieldName e; Msg e].

(** The values of Go's [error] interface that reach file.go:
    a [*FileError], a text error ([errors.New], and [fmt.Errorf] without
    [%w]), or an error value made by another file or package. *)
Inductive error (Foreign : Type) : Type :=
| FileErrorRef (e : FileError)
| errorString (text : string)
| foreignError (x : Foreign).

Arguments FileErrorRef {Foreign} e.
Arguments errorString {Foreign} text.
Arguments foreignError {Foreign} x.

(** A call that can fail: [Ok] carries the value, [Err] the error. *)
Inductive result (E A : Type) : Type :=
| Ok (a : A)
| Err (e : E).

Arguments Ok {E A} a.
Arguments Err {E A} e.

Definition bind {E A B : Type} (r : result E A) (k : A -> result E B) : result E B :=
  match r with
  | Ok a => k a
  | Err e => Err e
  end.

Notation "x <- r ;; k" := (bind r (fun x => k))
  (at level 61, r at next level, right associativity).

(** ** JSON values

    What [encoding/json] has read from a payload before it fills a Go
    value: a number keeps its literal, an object its members in the order
    of the payload (a key may occur more than once). *)
#[local] Unset Elimination Schemes.
Inductive json : Type :=
| JNull
| JBool (b : bool)
| JNumber (literal : string)
| JString (s : string)
| JArray (elements : list json)
| JObject (members : list (string * json)).
#[local] Set Elimination Schemes.

(** ** Record types declared outside file.go *)

Class RecordTypes : Type := {
  ForeignError : Type;
  FileHeader : Type;
  (* the fields of FileControl that file.go never names *)
  FileControlRest : Type;
  (* the fields of CashLetterHeader other than CashLetterID *)
  CashLetterHeaderRest : Type;
  (* the fields of CashLetter other than header, bundles and credit items *)
  CashLetterRest : Type;
  CreditItem : Type;
  (* the fields of Bundle other than Checks and Returns *)
  BundleRest : Type;
  CheckDetailRest : Type;
  CheckDetailAddendumA : Type;
  CheckDetailAddendumB : Type;
  CheckDetailAddendumC : Type;
  ReturnDetailRest : Type;
  ReturnDetailAddendumA : Type;
  ReturnDetailAddendumB : Type;
  ReturnDetailAddendumC : Type;
  ReturnDetailAddendumD : Type;
  ImageViewDetail : Type;
  ImageViewData : Type;
  ImageViewAnalysis : Type
}.

Section Model.

Context {RT : RecordTypes}.

Definition goerror : Type := error ForeignError.

(** The structs, with the fields file.go reads and the remaining ones
    gathered in a [_rest] field.  A field name that Go uses in two structs
    carries the struct's initials here ([cd_ItemAmount], [rd_ItemAmount],
    [cl_Bundles]). *)

Record CheckDetail : Type := mkCheckDetail {
  cd_ItemAmount : Z;
  cd_CheckDetailAddendumA : list CheckDetailAddendumA;
  cd_CheckDetailAddendumB : list CheckDetailAddendumB;
  cd_CheckDetailAddendumC : list CheckDetailAddendumC;
  cd_ImageViewDetail : list ImageViewDetail;
  cd_ImageViewData : list ImageViewData;
  cd_ImageViewAnalysis : list ImageViewAnalysis;
  cd_rest : CheckDetailRest
}.

Record ReturnDetail : Type := mkReturnDetail {
  rd_ItemAmount : Z;
  rd_ReturnDetailAddendumA : list ReturnDetailAddendumA;
  rd_ReturnDetailAddendumB : list ReturnDetailAddendumB;
  rd_ReturnDetailAddendumC : list ReturnDetailAddendumC;
  rd_ReturnDetailAddendumD : list ReturnDetailAddendumD;
  rd_ImageViewDetail : list ImageViewDetail;
  rd_ImageViewData : list ImageViewData;
  rd_ImageViewAnalysis : list ImageViewAnalysis;
  rd_rest : ReturnDetailRest
}.

Record Bundle : Type := mkBundle {
  Checks : list CheckDetail;
  Returns : list ReturnDetail;
  b_rest : BundleRest
}.

Record CashLetterHeader : Type := mkCashLetterHeader {
  CashLetterID : string;
  clh_rest : CashLetterHeaderRest
}.

Record CashLetter : Type := mkCashLetter {
  cl_CashLetterHeader : CashLetterHeader;
  cl_Bundles : list Bundle;
  CreditItems : list CreditItem;
  cl_rest : CashLetterRest
}.

(** Modelled from the spec: the method [CashLetter.GetCreditItems] is
    declared outside file.go; the builder takes "the count of credit items"
    of the cash letter from it, so it is the accessor of that sequence. *)
Definition GetCreditItems (cl : CashLetter) : list CreditItem := CreditItems cl.

(** [FileControl]: the fields [Create] assigns, and the rest. *)
Record FileControl : Type := mkFileControl {
  CashLetterCount : Z;
  TotalRecordCount : Z;
  TotalItemCount : Z;
  FileTotalAmount : Z;
  ImmediateOriginContactName : string;
  ImmediateOriginContactPhoneNumber : string;
  CreditTotalIndicator : Z;
  fc_rest : FileControlRest
}.

(** [File] is an imagecashletter file *)
Record File : Type := mkFile {
  ID : string;
  Header : FileHeader;
  CashLetters : list CashLetter;
  Bundles : list Bundle;
  Control : FileControl
}.

Definition set_ID (f : File) (v : string) : File :=
  mkFile v (Header f) (CashLetters f) (Bundles f) (Control f).

Definition set_Header (f : File) (v : FileHeader) : File :=
  mkFile (ID f) v (CashLetters f) (Bundles f) (Control f).

Definition set_CashLetters (f : File) (v : list CashLetter) : File :=
  mkFile (ID f) (Header f) v (Bundles f) (Control f).

Definition set_Bundles (f : File) (v : list Bundle) : File :=
  mkFile (ID f) (Header f) (CashLetters f) v (Control f).

Definition set_Control (f : File) (fc : FileControl) : File :=
  mkFile (ID f) (Header f) (CashLetters f) (Bundles f) fc.

(** [NewFile]'s collaborators and the children's methods, declared in the
    other files of the package. *)
Class Collaborators : Type := {
  ErrNilFile : goerror;
  NewFileHeader : FileHeader;
  NewFileControl : FileControl;
  FileHeader_Validate : FileHeader -> option goerror;
  CashLetter_Validate : CashLetter -> option goerror;
  Bundle_Validate : Bundle -> option goerror;
  FileHeader_setRecordType : FileHeader -> FileHeader;
  CashLetter_setRecordType : CashLetter -> CashLetter;
  Bundle_setRecordType : Bundle -> Bundle;
  FileControl_setRecordType : FileControl -> FileControl;
  (* the Error method of the error values made elsewhere *)
  ForeignError_Error : ForeignError -> string
}.

Context {CO : Collaborators}.

(** The [Error] method of an [error] value, which [%v] prints. *)
Definition Error (e : goerror) : string :=
  match e with
  | FileErrorRef fe => FileError_Error fe
  | errorString text => text
  | foreignError x => ForeignError_Error x
  end.

Definition msgFileCashLetterID : string := "%s is not unique".

(** [NewFile] constructs a file template with a FileHeader and FileControl. *)
Definition NewFile : File :=
  mkFile "" NewFileHeader [] [] NewFileControl.

(** [SetHeader] allows for header to be built.  The File after the call,
    which is also the pointer returned. *)
Definition SetHeader (f : File) (h : FileHeader) : File :=
  set_Header f h.

(** [AddCashLetter] appends a CashLetter to the File: the File after the
    call and the sequence returned. *)
Definition AddCashLetter (f : File) (cashLetter : CashLetter)
    : File * list CashLetter :=
  let f := set_CashLetters f (CashLetters f ++ [cashLetter])%list in
  (f, CashLetters f).

(** ** Create *)

(** The local variables of [Create] that its loops update. *)
Record Counters : Type := mkCounters {
  fileTotalItemCount : Z;
  fileTotalAmount : Z;
  cashLetterRecordCount : Z;
  bundleRecordCount : Z;
  creditIndicator : Z
}.

Definition set_fileTotalItemCount (s : Counters) (v : Z) : Counters :=
  mkCounters v (fileTotalAmount s) (cashLetterRecordCount s)
    (bundleRecordCount s) (creditIndicator s).

Definition set_fileTotalAmount (s : Counters) (v : Z) : Counters :=
  mkCounters (fileTotalItemCount s) v (cashLetterRecordCount s)
    (bundleRecordCount s) (creditIndicator s).

Definition set_cashLetterRecordCount (s : Counters) (v : Z) : Counters :=
  mkCounters (fileTotalItemCount s) (fileTotalAmount s) v
    (bundleRecordCount s) (creditIndicator s).

Definition set_bundleRecordCount (s : Counters) (v : Z) : Counters :=
  mkCounters (fileTotalItemCount s) (fileTotalAmount s)
    (cashLetterRecordCount s) v (creditIndicator s).

Definition set_creditIndicator (s : Counters) (v : Z) : Counters :=
  mkCounters (fileTotalItemCount s) (fileTotalAmount s)
    (cashLetterRecordCount s) (bundleRecordCount s) v.

(** Body of [for _, cd := range b.Checks]. *)
Definition checkBody (s : Counters) (cd : CheckDetail) : Counters :=
  let s := set_fileTotalItemCount s (int_add (fileTotalItemCount s) 1) in
  let s := set_fileTotalItemCount s
    (int_add (int_add (int_add (fileTotalItemCount s)
       (len (cd_CheckDetailAddendumA cd))) (len (cd_CheckDetailAddendumB cd)))
       (len (cd_CheckDetailAddendumC cd))) in
  let s := set_fileTotalItemCount s
    (int_add (int_add (int_add (fileTotalItemCount s)
       (len (cd_ImageViewDetail cd))) (len (cd_ImageViewData cd)))
       (len (cd_ImageViewAnalysis cd))) in
  set_fileTotalAmount s (int_add (fileTotalAmount s) (cd_ItemAmount cd)).

(** Body of [for _, rd := range b.Returns]. *)
Definition returnBody (s : Counters) (rd : ReturnDetail) : Counters :=
  let s := set_fileTotalItemCount s (int_add (fileTotalItemCount s) 1) in
  let s := set_fileTotalItemCount s
    (int_add (int_add (int_add (int_add (fileTotalItemCount s)
       (len (rd_ReturnDetailAddendumA rd))) (len (rd_ReturnDetailAddendumB rd)))
       (len (rd_ReturnDetailAddendumC rd))) (len (rd_ReturnDetailAddendumD rd))) in
  let s := set_fileTotalItemCount s
    (int_add (int_add (int_add (fileTotalItemCount s)
       (len (rd_ImageViewDetail rd))) (len (rd_ImageViewData rd)))
       (len (rd_ImageViewAnalysis rd))) in
  set_fileTotalAmount s (int_add (fileTotalAmount s) (rd_ItemAmount rd)).

(** [for _, b := range cl.Bundles], leaving at the first bundle that does
    not validate. *)
Fixpoint rangeBundles (bs : list Bundle) (s : Counters) : result goerror Counters :=
  match bs with
  | [] => Ok s
  | b :: bs' =>
      match Bundle_Validate b with
      | Some err => Err err
      | None =>
          let s := set_bundleRecordCount s (int_add (bundleRecordCount s) 2) in
          let s := fold_left checkBody (Checks b) s in
          let s := fold_left returnBody (Returns b) s in
          rangeBundles bs' s
      end
  end.

(** [for _, cl := range f.CashLetters], leaving at the first failure. *)
Fixpoint rangeCashLetters (cls : list CashLetter) (s : Counters) : result goerror Counters :=
  match cls with
  | [] => Ok s
  | cl :: cls' =>
      match CashLetter_Validate cl with
      | Some err => Err err
      | None =>
          let s := set_cashLetterRecordCount s (int_add (cashLetterRecordCount s) 2) in
          let s := set_fileTotalItemCount s
                     (int_add (fileTotalItemCount s) (len (GetCreditItems cl))) in
          let s :=
            if (len (GetCreditItems cl) >? 0)%Z then
              set_creditIndicator
                (set_fileTotalItemCount s
                   (int_add (fileTotalItemCount s) (len (GetCreditItems cl))))
                1
            else s in
          s <- rangeBundles (cl_Bundles cl) s ;;
          rangeCashLetters cls' s
      end
  end.

(** The FileControl [Create] builds from the calculated values. *)
Definition buildFileControl (fileCashLetterCount fileTotalRecordCount : Z)
    (s : Counters) : FileControl :=
  let fc := NewFileControl in
  mkFileControl fileCashLetterCount fileTotalRecordCount
    (fileTotalItemCount s) (fileTotalAmount s) "" "" (creditIndicator s)
    (fc_rest fc).

(** [Create] creates a valid imagecashletter File.  The receiver is a
    pointer: [None] is nil.  The result is the returned error ([None] is
    nil) and the File the pointer names after the call. *)
Definition Create (f : option File) : option goerror * option File :=
  match f with
  | None => (Some ErrNilFile, None)
  | Some file =>
      match FileHeader_Validate (Header file) with
      | Some err => (Some err, f)
      | None =>
          if (len (CashLetters file) <=? 0)%Z then
            (Some (FileErrorRef
                     {| FieldName := "CashLetters";
                        Value := Itoa (len (CashLetters file));
                        Msg := "must have []*CashLetters to be built" |}), f)
          else
            let fileCashLetterCount := len (CashLetters file) in
            let fileTotalRecordCount := 2 in
            match rangeCashLetters (CashLetters file) (mkCounters 0 0 0 0 0) with
            | Err err => (Some err, f)
            | Ok s =>
                let fileTotalRecordCount :=
                  int_add (int_add (int_add fileTotalRecordCount
                    (cashLetterRecordCount s)) (bundleRecordCount s))
                    (fileTotalItemCount s) in
                (None,
                 Some (set_Control file
                         (buildFileControl fileCashLetterCount
                            fileTotalRecordCount s)))
            end
      end
  end.

(** ** Validate *)

(** The loop of [CashLetterIDUnique]; [cashLetterID] is the rolling
    variable. *)
Fixpoint rangeCashLetterIDs (cls : list CashLetter) (cashLetterID : string)
    : option goerror :=
  match cls with
  | [] => None
  | cl :: cls' =>
      if String.eqb cashLetterID (CashLetterID (cl_CashLetterHeader cl)) then
        let msg := Sprintf msgFileCashLetterID [cashLetterID] in
        Some (FileErrorRef
                {| FieldName := "CashLetterID";
                   Value := CashLetterID (cl_CashLetterHeader cl);
                   Msg := msg |})
      else rangeCashLetterIDs cls' (CashLetterID (cl_CashLetterHeader cl))
  end.

(** [CashLetterIDUnique] verifies multiple CashLetters in a file have a
    unique CashLetterID *)
Definition CashLetterIDUnique (f : option File) : option goerror :=
  match f with
  | None => Some ErrNilFile
  | Some file =>
      if (len (CashLetters file) =? 0)%Z then Some ErrNilFile
      else rangeCashLetterIDs (CashLetters file) ""
  end.

(** [Validate] validates an ICL File *)
Definition Validate (f : option File) : option goerror :=
  match f with
  | None => Some ErrNilFile
  | Some _ =>
      match CashLetterIDUnique f with
      | Some err => Some err
      | None => None
      end
  end.

(** [setRecordTypes]: a nil File is left alone. *)
Definition setRecordTypes (f : option File) : option File :=
  match f with
  | None => None
  | Some file =>
      Some (mkFile (ID file)
              (FileHeader_setRecordType (Header file))
              (map CashLetter_setRecordType (CashLetters file))
              (map Bundle_setRecordType (Bundles file))
              (FileControl_setRecordType (Control file)))
  end.

(** ** FileFromJSON *)

(** [encoding/json], as far as [FileFromJSON] calls it.  [json_read] is the
    decoder reading the first value of the stream; an [unmarshal_T] fills a
    Go value of type [T] (the second argument is the value the target holds
    before) and is the library's work for the types file.go does not
    declare. *)
Class EncodingJSON : Type := {
  json_read : list Byte.byte -> result goerror json;
  (* the case-insensitive match of a key with a field name *)
  json_fold_eq : string -> string -> bool;
  (* the error for a value that does not go into a struct *)
  json_type_error : json -> goerror;
  unmarshal_string : json -> string -> result goerror string;
  unmarshal_FileHeader : json -> FileHeader -> result goerror FileHeader;
  unmarshal_CashLetters : json -> list CashLetter -> result goerror (list CashLetter);
  unmarshal_Bundles : json -> list Bundle -> result goerror (list Bundle);
  unmarshal_FileControl : json -> FileControl -> result goerror FileControl;
  (* the zero values of the types declared elsewhere *)
  zero_FileHeader : FileHeader;
  zero_FileControlRest : FileControlRest
}.

Context {EJ : EncodingJSON}.

(** A struct field as the decoder sees it: the name of its [json] tag and
    how a value is stored into it. *)
Definition field (T : Type) : Type := (string * (json -> T -> result goerror T))%type.

(** The field a key selects: the one with exactly that name, and without
    one the first whose name matches without regard to case. *)
Definition findField {T : Type} (fields : list (field T)) (key : string)
    : option (field T) :=
  match find (fun fd => String.eqb (fst fd) key) fields with
  | Some fd => Some fd
  | None => find (fun fd => json_fold_eq (fst fd) key) fields
  end.

(** One member of an object: stored through the field its key selects,
    ignored when no field is selected. *)
Definition decodeMember {T : Type} (fields : list (field T))
    (acc : result goerror T) (member : string * json) : result goerror T :=
  target <- acc ;;
  match findField fields (fst member) with
  | Some fd => snd fd (snd member) target
  | None => Ok target
  end.

(** Unmarshalling into a struct: [null] leaves the target as it is, an
    object stores its members in order, anything else is a type error.
    The first error met is the one reported. *)
Definition decodeStruct {T : Type} (fields : list (field T)) (v : json)
    (target : T) : result goerror T :=
  match v with
  | JNull => Ok target
  | JObject members => fold_left (decodeMember fields) members (Ok target)
  | _ => Err (json_type_error v)
  end.

(** [json.NewDecoder(bytes.NewReader(bs)).Decode(&target)] *)
Definition Decode {T : Type} (fields : list (field T)) (bs : list Byte.byte)
    (target : T) : result goerror T :=
  v <- json_read bs ;;
  decodeStruct fields v target.

(** The tagged fields of [File]. *)
Definition File_fields : list (field File) :=
  [ ("id", fun v f => x <- unmarshal_string v (ID f) ;; Ok (set_ID f x));
    ("fileHeader", fun v f => x <- unmarshal_FileHeader v (Header f) ;; Ok (set_Header f x));
    ("cashLetters", fun v f => x <- unmarshal_CashLetters v (CashLetters f) ;; Ok (set_CashLetters f x));
    ("bundle", fun v f => x <- unmarshal_Bundles v (Bundles f) ;; Ok (set_Bundles f x));
    ("fileControl", fun v f => x <- unmarshal_FileControl v (Control f) ;; Ok (set_Control f x)) ].

(** [type fileHeader struct { Header FileHeader `json:"fileHeader"` }] *)
Definition fileHeader_fields : list (field FileHeader) :=
  [ ("fileHeader", unmarshal_FileHeader) ].

(** [type fileControl struct { Control FileControl `json:"fileControl"` }] *)
Definition fileControl_fields : list (field FileControl) :=
  [ ("fileControl", unmarshal_FileControl) ].

(** [var f File] *)
Definition zero_File : File :=
  mkFile "" zero_FileHeader [] []
    (mkFileControl 0 0 0 0 "" "" 0 zero_FileControlRest).

(** [fmt.Errorf] with one [%v] operand that is an error. *)
Definition Errorf (format : string) (err : goerror) : goerror :=
  errorString (Sprintf format [Error err]).

(** [FileFromJSON] attempts to return a *File object assuming the input is
    valid JSON.  The result is the pair the function returns: the File
    pointer ([None] is nil) and the error ([None] is nil). *)
Definition FileFromJSON (bs : list Byte.byte) : option File * option goerror :=
  if (len bs =? 0)%Z then (None, Some (errorString "no JSON data provided"))
  else
    (* read any root level fields *)
    let file := NewFile in
    match Decode File_fields bs zero_File with
    | Err err => (None, Some (Errorf "problem reading file: %v" err))
    | Ok f =>
        let file := set_ID file (ID f) in
        let file := set_CashLetters file (CashLetters f) in
        let file := set_Bundles file (Bundles f) in
        (* read the FileHeader *)
        match Decode fileHeader_fields bs (Header file) with
        | Err err => (None, Some (Errorf "problem reading FileHeader: %v" err))
        | Ok header =>
            let file := set_Header file header in
            (* read file control *)
            match Decode fileControl_fields bs NewFileControl with
            | Err err => (None, Some (Errorf "problem reading FileControl: %v" err))
            | Ok control =>
                let file := set_Control file control in
                let file := setRecordTypes (Some file) in
                match Create file with
                | (Some err, file) => (file, Some err)
                | (None, file) =>
                    match Validate file with
                    | Some err => (file, Some err)
                    | None => (file, None)
                    end
                end
            end
        end
    end.

End Model.

(** ** The totals of a tree, said without the loops

    These follow the wording of the specification: sums in [Z] over the
    records of the tree, with no machine arithmetic.  The theorems below
    relate them to what [Create] stores. *)

Section Totals.

Context {RT : RecordTypes} {CO : Collaborators}.

Definition Zsum (l : list Z) : Z := fold_right Z.add 0 l.

(** Every Bundle of every CashLetter, in file order. *)
Definition allBundles (cls : list CashLetter) : list Bundle :=
  flat_map cl_Bundles cls.

(** Every CheckDetail of the tree. *)
Definition allChecks (cls : list CashLetter) : list CheckDetail :=
  flat_map Checks (allBundles cls).

(** Every ReturnDetail of the tree. *)
Definition allReturns (cls : list CashLetter) : list ReturnDetail :=
  flat_map Returns (allBundles cls).

(** The sum of ItemAmount over every CheckDetail and every ReturnDetail. *)
Definition sumItemAmounts (cls : list CashLetter) : Z :=
  Zsum (map cd_ItemAmount (allChecks cls)) + Zsum (map rd_ItemAmount (allReturns cls)).

(** The records a CheckDetail stands for: itself, its addenda, its image
    views. *)
Definition itemsOfCheck (cd : CheckDetail) : Z :=
  1 + len (cd_CheckDetailAddendumA cd) + len (cd_CheckDetailAddendumB cd)
    + len (cd_CheckDetailAddendumC cd)
    + len (cd_ImageViewDetail cd) + len (cd_ImageViewData cd)
    + len (cd_ImageViewAnalysis cd).

Definition itemsOfReturn (rd : ReturnDetail) : Z :=
  1 + len (rd_ReturnDetailAddendumA rd) + len (rd_ReturnDetailAddendumB rd)
    + len (rd_ReturnDetailAddendumC rd) + len (rd_ReturnDetailAddendumD rd)
    + len (rd_ImageViewDetail rd) + len (rd_ImageViewData rd)
    + len (rd_ImageViewAnalysis rd).

(** Credit items are counted once, and once more when there are any. *)
Definition itemsOfCredit (cl : CashLetter) : Z :=
  let n := len (CreditItems cl) in
  if (n >? 0)%Z then n + n else n.

Definition sumItems (cls : list CashLetter) : Z :=
  Zsum (map itemsOfCredit cls)
  + Zsum (map itemsOfCheck (allChecks cls))
  + Zsum (map itemsOfReturn (allReturns cls)).

Definition hasCredit (cls : list CashLetter) : bool :=
  existsb (fun cl => (len (CreditItems cl) >? 0)%Z) cls.

(** Header and control of the file, of each cash letter, of each bundle,
    and the items. *)
Definition sumRecords (cls : list CashLetter) : Z :=
  2 + 2 * len cls + 2 * len (allBundles cls) + sumItems cls.

(** The control record of a tree. *)
Definition derivedControl (cls : list CashLetter) : FileControl :=
  mkFileControl (len cls) (wrap (sumRecords cls)) (wrap (sumItems cls))
    (wrap (sumItemAmounts cls)) "" "" (if hasCredit cls then 1 else 0)
    (fc_rest NewFileControl).

(** The children [Create] validates, in the order it meets them: each cash
    letter, then its bundles. *)
Definition validations (cls : list CashLetter) : list (option goerror) :=
  flat_map (fun cl => CashLetter_Validate cl :: map Bundle_Validate (cl_Bundles cl)) cls.

(** The first error of a sequence of validation outcomes. *)
Fixpoint firstError (outcomes : list (option goerror)) : option goerror :=
  match outcomes with
  | [] => None
  | Some err :: _ => Some err
  | None :: rest => firstError rest
  end.

(** A CheckDetail with no addenda and no image-view records. *)
Definition plainCheck (cd : CheckDetail) : bool :=
  ((len (cd_CheckDetailAddendumA cd) =? 0) && (len (cd_CheckDetailAddendumB cd) =? 0)
   && (len (cd_CheckDetailAddendumC cd) =? 0) && (len (cd_ImageViewDetail cd) =? 0)
   && (len (cd_ImageViewData cd) =? 0) && (len (cd_ImageViewAnalysis cd) =? 0))%Z%bool.

(** A Bundle of [k] plain CheckDetails and no ReturnDetails. *)
Definition uniformBundle (k : Z) (b : Bundle) : bool :=
  ((len (Checks b) =? k)%Z && (len (Returns b) =? 0)%Z
   && forallb plainCheck (Checks b))%bool.

(** A CashLetter of [b] such Bundles and no CreditItems. *)
Definition uniformCashLetter (b k : Z) (cl : CashLetter) : bool :=
  ((len (cl_Bundles cl) =? b)%Z && (len (CreditItems cl) =? 0)%Z
   && forallb (uniformBundle k) (cl_Bundles cl))%bool.

(** A File of [c] such CashLetters. *)
Definition uniformFile (c b k : Z) (f : File) : bool :=
  ((len (CashLetters f) =? c)%Z
   && forallb (uniformCashLetter b k) (CashLetters f))%bool.

(** The CashLetterIDs of a File, in order. *)
Definition cashLetterIDs (f : File) : list string :=
  map (fun cl => CashLetterID (cl_CashLetterHeader cl)) (CashLetters f).

End Totals.

(** ** Moving the counters

    [advance s ...] is the state of the counters after the given exact
    amounts were added to [s], each addition a machine addition. *)

Section Accumulation.

Context {RT : RecordTypes} {CO : Collaborators}.

Definition advance (s : Counters) (items amount cashLetters bundles : Z)
    (credit : bool) : Counters :=
  mkCounters (wrap (fileTotalItemCount s + items))
    (wrap (fileTotalAmount s + amount))
    (wrap (cashLetterRecordCount s + cashLetters))
    (wrap (bundleRecordCount s + bundles))
    (if credit then 1 else creditIndicator s).

(** The four sums hold values of the machine: wrapping leaves them alone. *)
Definition canonical (s : Counters) : Prop :=
  wrap (fileTotalItemCount s) = fileTotalItemCount s
  /\ wrap (fileTotalAmount s) = fileTotalAmount s
  /\ wrap (cashLetterRecordCount s) = cashLetterRecordCount s
  /\ wrap (bundleRecordCount s) = bundleRecordCount s.

End Accumulation.

(** ** The adapter, pass by pass *)

Section Adapter.

Context {RT : RecordTypes} {CO : Collaborators} {EJ : EncodingJSON}.

(** Whether a key of the payload stores into the struct field [name]. *)
Definition selects (name key : string) : bool :=
  (String.eqb name key || json_fold_eq name key)%bool.

(** A payload object without a key for [fileHeader] or [fileControl]. *)
Definition noHeaderNoControl (members : list (string * json)) : bool :=
  forallb (fun m => negb (selects "fileHeader" (fst m))
                    && negb (selects "fileControl" (fst m)))%bool members.

(** The File the three decode passes put together: the root fields of the
    first, the header of the second, seeded with the default header, and
    the control of the third, seeded with the default control. *)
Definition decodePasses (bs : list Byte.byte) : result goerror File :=
  f <- Decode File_fields bs zero_File ;;
  header <- Decode fileHeader_fields bs NewFileHeader ;;
  control <- Decode fileControl_fields bs NewFileControl ;;
  Ok (mkFile (ID f) header (CashLetters f) (Bundles f) control).

End Adapter.

(** ** A small instance

    Concrete record types and collaborators on which the definitions run:
    a header is its standard level and is valid when that is not empty, a
    cash letter and a bundle carry whether they are valid, the control
    keeps its record type. *)

Module Sample.

Definition types : RecordTypes :=
  {| ForeignError := string;
     FileHeader := string;
     FileControlRest := string;
     CashLetterHeaderRest := unit;
     CashLetterRest := bool;
     CreditItem := unit;
     BundleRest := bool;
     CheckDetailRest := unit;
     CheckDetailAddendumA := unit;
     CheckDetailAddendumB := unit;
     CheckDetailAddendumC := unit;
     ReturnDetailRest := unit;
     ReturnDetailAddendumA := unit;
     ReturnDetailAddendumB := unit;
     ReturnDetailAddendumC := unit;
     ReturnDetailAddendumD := unit;
     ImageViewDetail := unit;
     ImageViewData := unit;
     ImageViewAnalysis := unit |}.

#[local] Existing Instance types.

Definition collaborators : Collaborators :=
  {| ErrNilFile := errorString "nil File";
     NewFileHeader := "" : @FileHeader types;
     NewFileControl := mkFileControl 0 0 0 0 "" "" 0 ("99" : @FileControlRest types);
     FileHeader_Validate := fun h : @FileHeader types =>
       if String.eqb h "" then Some (foreignError ("FileHeader is not valid" : @ForeignError types))
       else None;
     CashLetter_Validate := fun cl =>
       if (cl_rest cl : bool) then None
       else Some (foreignError ("CashLetter is not valid" : @ForeignError types));
     Bundle_Validate := fun b =>
       if (b_rest b : bool) then None
       else Some (foreignError ("Bundle is not valid" : @ForeignError types));
     FileHeader_setRecordType := fun h => h;
     CashLetter_setRecordType := fun cl => cl;
     Bundle_setRecordType := fun b => b;
     FileControl_setRecordType := fun fc =>
       mkFileControl (CashLetterCount fc) (TotalRecordCount fc) (TotalItemCount fc)
         (FileTotalAmount fc) (ImmediateOriginContactName fc)
         (ImmediateOriginContactPhoneNumber fc) (CreditTotalIndicator fc)
         ("99" : @FileControlRest types);
     ForeignError_Error := fun x : @ForeignError types => (x : string) |}.

#[local] Existing Instance collaborators.

Definition check (amount : Z) : CheckDetail :=
  mkCheckDetail amount [] [] [] [] [] [] (tt : @CheckDetailRest types).

Definition returned (amount : Z) : ReturnDetail :=
  mkReturnDetail amount [] [] [] [] [] [] [] (tt : @ReturnDetailRest types).

Definition bundle (valid : bool) (checks : list Z) (returns : list Z) : Bundle :=
  mkBundle (map check checks) (map returned returns) (valid : @BundleRest types).

Definition cashLetter (id : string) (valid : bool) (bundles : list Bundle) : CashLetter :=
  mkCashLetter (mkCashLetterHeader id (tt : @CashLetterHeaderRest types))
    bundles [] (valid : @CashLetterRest types).

Definition file (cashLetters : list CashLetter) : File :=
  mkFile "f1" ("35" : @FileHeader types) cashLetters [] NewFileControl.

(** The File a pointer names after [Create]. *)
Definition built (f : File) : File :=
  match snd (Create (Some f)) with
  | Some f' => f'
  | None => f
  end.

(** Two cash letters of two bundles of two checks. *)
Definition uniform222 : File :=
  file [ cashLetter "A" true [bundle true [100; 200] []; bundle true [300; 400] []];
         cashLetter "B" true [bundle true [500; 600] []; bundle true [700; 800] []] ].

(** Checks and returns side by side. *)
Definition mixed : File :=
  file [ cashLetter "A" true [bundle true [1000; 250] [75]];
         cashLetter "B" true [bundle true [] [40; 2]] ].

(** The same cash letters under another ID and a control written by
    hand. *)
Definition mixedAgain : File :=
  mkFile "f2" ("35" : @FileHeader types) (CashLetters mixed) []
    (mkFileControl 7 7 7 7 "name" "phone" 1 ("99" : @FileControlRest types)).

(** The second bundle of the first cash letter does not validate. *)
Definition badBundle : File :=
  file [ cashLetter "A" true [bundle true [100] []; bundle false [200] []];
         cashLetter "B" false [] ].

Definition withIDs (ids : list string) : File :=
  file (map (fun id => cashLetter id true []) ids).

(** *** A small decoder

    It reads the payloads of a table and fills the records above from the
    members it knows; a header is [{"standardLevel": ...}], a cash letter
    [{"cashLetterHeader": {"cashLetterID": ...}}], a control
    [{"totalRecordCount": ...}]. *)

Definition typeError : goerror :=
  foreignError ("json: cannot unmarshal value" : @ForeignError types).

Definition syntaxError : goerror :=
  foreignError ("invalid character looking for beginning of value" : @ForeignError types).

Fixpoint member (key : string) (members : list (string * json)) : option json :=
  match members with
  | [] => None
  | (k, v) :: rest => if String.eqb k key then Some v else member key rest
  end.

Definition lower (c : ascii) : ascii :=
  let n := nat_of_ascii c in
  if ((65 <=? n)%nat && (n <=? 90)%nat)%bool then ascii_of_nat (n + 32) else c.

Fixpoint lowered (s : string) : string :=
  match s with
  | EmptyString => EmptyString
  | String c rest => String (lower c) (lowered rest)
  end.

Definition stringOf (v : json) (target : string) : result goerror string :=
  match v with
  | JNull => Ok target
  | JString s => Ok s
  | _ => Err typeError
  end.

Definition headerOf (v : json) (target : @FileHeader types) : result goerror (@FileHeader types) :=
  match v with
  | JNull => Ok target
  | JObject members =>
      match member "standardLevel" members with
      | Some level => stringOf level target
      | None => Ok target
      end
  | _ => Err typeError
  end.

Definition cashLetterOf (v : json) : result goerror CashLetter :=
  match v with
  | JObject members =>
      match member "cashLetterHeader" members with
      | Some (JObject header) =>
          match member "cashLetterID" header with
          | Some id => id <- stringOf id "" ;; Ok (cashLetter id true [])
          | None => Ok (cashLetter "" true [])
          end
      | Some _ => Err typeError
      | None => Ok (cashLetter "" true [])
      end
  | _ => Err typeError
  end.

Fixpoint each {A : Type} (decode : json -> result goerror A) (vs : list json)
    : result goerror (list A) :=
  match vs with
  | [] => Ok []
  | v :: rest => a <- decode v ;; l <- each decode rest ;; Ok (a :: l)
  end.

Definition cashLettersOf (v : json) (target : list CashLetter)
    : result goerror (list CashLetter) :=
  match v with
  | JNull => Ok []
  | JArray elements => each cashLetterOf elements
  | _ => Err typeError
  end.

Definition bundlesOf (v : json) (target : list Bundle) : result goerror (list Bundle) :=
  match v with
  | JNull => Ok []
  | JArray [] => Ok []
  | _ => Err typeError
  end.

Definition numberOf (literal : string) : result goerror Z :=
  match NilZero.int_of_string literal with
  | Some i => Ok (Z.of_int i)
  | None => Err typeError
  end.

Definition controlOf (v : json) (target : FileControl) : result goerror FileControl :=
  match v with
  | JNull => Ok target
  | JObject members =>
      match member "totalRecordCount" members with
      | Some (JNumber literal) =>
          n <- numberOf literal ;;
          Ok (mkFileControl (CashLetterCount target) n (TotalItemCount target)
                (FileTotalAmount target) (ImmediateOriginContactName target)
                (ImmediateOriginContactPhoneNumber target)
                (CreditTotalIndicator target) (fc_rest target))
      | Some _ => Err typeError
      | None => Ok target
      end
  | _ => Err typeError
  end.

(** The bytes of a payload written with apostrophes for the quotation
    marks. *)
Definition payload (text : string) : list Byte.byte :=
  map (fun b => if Byte.eqb b Byte.x27 then Byte.x22 else b) (list_byte_of_string text).

(** A payload with cash letters only. *)
Definition onlyCashLetters : list Byte.byte :=
  payload "{'cashLetters':[{'cashLetterHeader':{'cashLetterID':'CL1'}}]}".

Definition onlyCashLettersValue : json :=
  JObject [("cashLetters",
            JArray [JObject [("cashLetterHeader",
                              JObject [("cashLetterID", JString "CL1")])]])].

(** A payload with a header, cash letters and a control that gives
    totalRecordCount. *)
Definition withControl : list Byte.byte :=
  payload "{'id':'f1','fileHeader':{'standardLevel':'35'},'cashLetters':[{'cashLetterHeader':{'cashLetterID':'CL1'}}],'fileControl':{'totalRecordCount':99}}".

Definition withControlValue : json :=
  JObject [("id", JString "f1");
           ("fileHeader", JObject [("standardLevel", JString "35")]);
           ("cashLetters",
            JArray [JObject [("cashLetterHeader",
                              JObject [("cashLetterID", JString "CL1")])]]);
           ("fileControl", JObject [("totalRecordCount", JNumber "99")])].

(** Not JSON. *)
Definition garbage : list Byte.byte := payload "]".

Definition sameBytes (a b : list Byte.byte) : bool :=
  String.eqb (string_of_list_byte a) (string_of_list_byte b).

Definition read (bs : list Byte.byte) : result goerror json :=
  if sameBytes bs onlyCashLetters then Ok onlyCashLettersValue
  else if sameBytes bs withControl then Ok withControlValue
  else Err syntaxError.

Definition encodingJSON : EncodingJSON :=
  {| json_read := read;
     json_fold_eq := fun name key => String.eqb (lowered name) (lowered key);
     json_type_error := fun _ => typeError;
     unmarshal_string := stringOf;
     unmarshal_FileHeader := headerOf;
     unmarshal_CashLetters := cashLettersOf;
     unmarshal_Bundles := bundlesOf;
     unmarshal_FileControl := controlOf;
     zero_FileHeader := "" : @FileHeader types;
     zero_FileControlRest := "" : @FileControlRest types |}.

#[local] Existing Instance encodingJSON.

(** The File the root pass reads from a payload. *)
Definition rootOf (bs : list Byte.byte) : File :=
  match Decode File_fields bs zero_File with
  | Ok f => f
  | Err _ => zero_File
  end.

(** The File the three passes put together. *)
Definition assembled (bs : list Byte.byte) : File :=
  match decodePasses bs with
  | Ok a => a
  | Err _ => zero_File
  end.

(** The File after [setRecordTypes]. *)
Definition tagged (f : File) : File :=
  match setRecordTypes (Some f) with
  | Some f' => f'
  | None => f
  end.

End Sample.

(** ** Further vocabulary for the properties of the File operations *)

Section Vocabulary.

Context {RT : RecordTypes} {CO : Collaborators} {EJ : EncodingJSON}.

(** No identifier equals the one before it, [previous] standing before the
    first. *)
Fixpoint adjacentDistinct (previous : string) (ids : list string) : bool :=
  match ids with
  | [] => true
  | id :: rest => (negb (String.eqb previous id) && adjacentDistinct id rest)%bool
  end.

(** The first identifier that equals the one before it. *)
Fixpoint firstRepeat (previous : string) (ids : list string) : option string :=
  match ids with
  | [] => None
  | id :: rest => if String.eqb previous id then Some id else firstRepeat id rest
  end.

(** The FileError of a CashLetterID that is not unique. *)
Definition notUnique (id : string) : goerror :=
  FileErrorRef {| FieldName := "CashLetterID";
                  Value := id;
                  Msg := id ++ " is not unique" |}.

(** The number of credit items of the cash letters. *)
Definition creditItemCount (cls : list CashLetter) : Z :=
  Zsum (map (fun cl => len (CreditItems cl)) cls).

(** A cash letter that validates, with all its bundles. *)
Definition validCashLetter (cl : CashLetter) : Prop :=
  CashLetter_Validate cl = None
  /\ Forall (fun b => Bundle_Validate b = None) (cl_Bundles cl).

(** The values [decodeStruct] stores into a struct without a type error. *)
Definition isStructValue (v : json) : bool :=
  match v with
  | JNull | JObject _ => true
  | _ => false
  end.

(** A payload object without a key for [cashLetters]. *)
Definition noCashLetters (members : list (string * json)) : bool :=
  forallb (fun m => negb (selects "cashLetters" (fst m))) members.

End Vocabulary.

Module SampleRuns.

#[local] Existing Instance Sample.types.
#[local] Existing Instance Sample.collaborators.
#[local] Existing Instance Sample.encodingJSON.

(** A cash letter with two credit items, a check with two addenda and an
    image view, and a return with one addendum. *)
Definition rich : File :=
  Sample.file
    [ mkCashLetter (mkCashLetterHeader "A" (tt : @CashLetterHeaderRest Sample.types))
        [ mkBundle
            [ mkCheckDetail 500 [tt] [] [tt] [tt] [] [] (tt : @CheckDetailRest Sample.types) ]
            [ mkReturnDetail 20 [] [tt] [] [] [] [] [] (tt : @ReturnDetailRest Sample.types) ]
            (true : @BundleRest Sample.types) ]
        [tt; tt] (true : @CashLetterRest Sample.types);
      Sample.cashLetter "B" true [Sample.bundle true [7] []] ].

(** A third cash letter for [Sample.mixed]. *)
Definition extra : CashLetter :=
  Sample.cashLetter "C" true [Sample.bundle true [10; 20] [5]; Sample.bundle true [] [1]].

(** [Sample.mixed] with its cash letters the other way round. *)
Definition mixedReversed : File :=
  Sample.file (rev (CashLetters Sample.mixed)).

(** A header that does not validate on [Sample.mixed]. *)
Definition noHeader : File :=
  mkFile "f1" ("" : @FileHeader Sample.types) (CashLetters Sample.mixed) []
    NewFileControl.

(** The File a payload comes back as. *)
Definition returnedFile (bs : list Byte.byte) : File :=
  match fst (FileFromJSON bs) with
  | Some file => file
  | None => zero_File
  end.

(** Two cash letters with the same identifier. *)
Definition repeated : list Byte.byte :=
  Sample.payload "{'fileHeader':{'standardLevel':'35'},'cashLetters':[{'cashLetterHeader':{'cashLetterID':'CL1'}},{'cashLetterHeader':{'cashLetterID':'CL1'}}]}".

Definition repeatedValue : json :=
  JObject [("fileHeader", JObject [("standardLevel", JString "35")]);
           ("cashLetters",
            JArray [JObject [("cashLetterHeader",
                              JObject [("cashLetterID", JString "CL1")])];
                    JObject [("cashLetterHeader",
                              JObject [("cashLetterID", JString "CL1")])]])].

(** A header and nothing else. *)
Definition headerOnly : list Byte.byte :=
  Sample.payload "{'fileHeader':{'standardLevel':'35'},'note':'none'}".

Definition headerOnlyValue : json :=
  JObject [("fileHeader", JObject [("standardLevel", JString "35")]);
           ("note", JString "none")].

(** An array where the object of a File is expected. *)
Definition anArray : list Byte.byte := Sample.payload "[]".

(** The decoder of [Sample], knowing three payloads more. *)
Definition read (bs : list Byte.byte) : result goerror json :=
  if Sample.sameBytes bs repeated then Ok repeatedValue
  else if Sample.sameBytes bs headerOnly then Ok headerOnlyValue
  else if Sample.sameBytes bs anArray then Ok (JArray [])
  else Sample.read bs.

Definition encodingJSON : EncodingJSON :=
  {| json_read := read;
     json_fold_eq := fun name key => String.eqb (Sample.lowered name) (Sample.lowered key);
     json_type_error := fun _ => Sample.typeError;
     unmarshal_string := Sample.stringOf;
     unmarshal_FileHeader := Sample.headerOf;
     unmarshal_CashLetters := Sample.cashLettersOf;
     unmarshal_Bundles := Sample.bundlesOf;
     unmarshal_FileControl := Sample.controlOf;
     zero_FileHeader := "" : @FileHeader Sample.types;
     zero_FileControlRest := "" : @FileControlRest Sample.types |}.

(** The File a payload comes back as under this decoder. *)
Definition decodedFile (bs : list Byte.byte) : File :=
  match fst (FileFromJSON (EJ := encodingJSON) bs) with
  | Some file => file
  | None => zero_File
  end.

End SampleRuns.

Module SampleEdge.

#[local] Existing Instance Sample.types.
#[local] Existing Instance Sample.collaborators.

(** Two checks whose amounts add up to one more than the largest [int]. *)
Definition overflowing : File :=
  Sample.file [ Sample.cashLetter "A" true
                  [Sample.bundle true [9223372036854775807; 1] []] ].

(** Cash letters and a control that gives totalRecordCount, but no
    header. *)
Definition controlNoHeader : list Byte.byte :=
  Sample.payload "{'cashLetters':[{'cashLetterHeader':{'cashLetterID':'CL1'}}],'fileControl':{'totalRecordCount':99}}".

Definition controlNoHeaderValue : json :=
  JObject [("cashLetters",
            JArray [JObject [("cashLetterHeader",
                              JObject [("cashLetterID", JString "CL1")])]]);
           ("fileControl", JObject [("totalRecordCount", JNumber "99")])].

(** The decoder of [SampleRuns], knowing that payload too. *)
Definition read (bs : list Byte.byte) : result goerror json :=
  if Sample.sameBytes bs controlNoHeader then Ok controlNoHeaderValue
  else SampleRuns.read bs.

Definition encodingJSON : EncodingJSON :=
  {| json_read := read;
     json_fold_eq := fun name key => String.eqb (Sample.lowered name) (Sample.lowered key);
     json_type_error := fun _ => Sample.typeError;
     unmarshal_string := Sample.stringOf;
     unmarshal_FileHeader := Sample.headerOf;
     unmarshal_CashLetters := Sample.cashLettersOf;
     unmarshal_Bundles := Sample.bundlesOf;
     unmarshal_FileControl := Sample.controlOf;
     zero_FileHeader := "" : @FileHeader Sample.types;
     zero_FileControlRest := "" : @FileControlRest Sample.types |}.

#[local] Existing Instance encodingJSON.

(** The File a payload comes back as under this decoder. *)
Definition decodedFile (bs : list Byte.byte) : File :=
  match fst (FileFromJSON bs) with
  | Some file => file
  | None => zero_File
  end.

(** The control the third pass reads from a payload. *)
Definition suppliedControl (bs : list Byte.byte) : FileControl :=
  match Decode fileControl_fields bs NewFileControl with
  | Ok c => c
  | Err _ => NewFileControl
  end.

End SampleEdge.

(** * Properties *)

Unset Implicit Arguments.

Lemma int_modulus_pos : 0 < int_modulus.
Proof. reflexivity. Qed.

Lemma wrap_add_l (a b : Z) : wrap (wrap a + b) = wrap (a + b).
Proof.
  unfold wrap.
  replace ((a + int_half) mod int_modulus - int_half + b + int_half)
    with ((a + int_half) mod int_modulus + b) by ring.
  rewrite Zplus_mod_idemp_l.
  do 2 f_equal. ring.
Qed.

Lemma wrap_add_r (a b : Z) : wrap (a + wrap b) = wrap (a + b).
Proof. rewrite Z.add_comm, wrap_add_l. f_equal. ring. Qed.

Lemma wrap_idem (a : Z) : wrap (wrap a) = wrap a.
Proof.
  transitivity (wrap (wrap a + 0)).
  - f_equal. ring.
  - rewrite wrap_add_l. f_equal. ring.
Qed.

Lemma wrap_range (a : Z) : int_min <= wrap a <= int_max.
Proof.
  unfold wrap, int_min, int_max.
  pose proof (Z.mod_pos_bound (a + int_half) int_modulus int_modulus_pos) as H.
  assert (E : int_modulus = 2 * int_half) by reflexivity.
  remember ((a + int_half) mod int_modulus) as r.
  lia.
Qed.

Lemma wrap_small (a : Z) : int_min <= a <= int_max -> wrap a = a.
Proof.
  unfold wrap, int_min, int_max. intros H.
  assert (E : int_modulus = 2 * int_half) by reflexivity.
  rewrite Z.mod_small by lia.
  ring.
Qed.

Lemma int_add_wrap_l (a b : Z) : int_add (wrap a) b = wrap (a + b).
Proof. apply wrap_add_l. Qed.

(** Removes the inner wraps of a chain of machine additions. *)
Ltac unwrap :=
  unfold int_add;
  repeat first [rewrite wrap_add_r | rewrite wrap_add_l | rewrite <- Z.add_assoc].

Lemma len_nonneg {A : Type} (s : list A) : 0 <= len s.
Proof. unfold len. lia. Qed.

Lemma len_app {A : Type} (s t : list A) : len (s ++ t)%list = len s + len t.
Proof. unfold len. rewrite length_app. lia. Qed.

Lemma len_cons {A : Type} (a : A) (s : list A) : len (a :: s) = 1 + len s.
Proof. unfold len. simpl List.length. lia. Qed.

Lemma Zsum_app (l m : list Z) : Zsum (l ++ m)%list = Zsum l + Zsum m.
Proof.
  induction l as [|x l IH]; simpl.
  - reflexivity.
  - rewrite IH. ring.
Qed.


Section Loops.

Context {RT : RecordTypes} {CO : Collaborators}.

Lemma advance_advance (s : Counters) (a b c d a' b' c' d' : Z) (cr cr' : bool) :
  advance (advance s a b c d cr) a' b' c' d' cr'
  = advance s (a + a') (b + b') (c + c') (d + d') (cr || cr').
Proof.
  unfold advance; simpl.
  rewrite !wrap_add_l, !Z.add_assoc.
  destruct cr, cr'; reflexivity.
Qed.

Lemma advance_canonical (s : Counters) (a b c d : Z) (cr : bool) :
  canonical (advance s a b c d cr).
Proof. unfold canonical, advance; simpl. rewrite !wrap_idem. tauto. Qed.

Lemma advance_zero (s : Counters) :
  canonical s -> advance s 0 0 0 0 false = s.
Proof.
  destruct s as [i a c b cr]. unfold canonical, advance; simpl.
  intros (Hi & Ha & Hc & Hb). rewrite !Z.add_0_r. congruence.
Qed.

Lemma advance_ext (s : Counters) (a b c d a' b' c' d' : Z) (cr cr' : bool) :
  a = a' -> b = b' -> c = c' -> d = d' -> cr = cr' ->
  advance s a b c d cr = advance s a' b' c' d' cr'.
Proof. intros; subst; reflexivity. Qed.

Lemma checkBody_advance (s : Counters) (cd : CheckDetail) :
  canonical s ->
  checkBody s cd = advance s (itemsOfCheck cd) (cd_ItemAmount cd) 0 0 false.
Proof.
  destruct s as [i a c b cr]. unfold canonical, checkBody, advance; simpl.
  intros (Hi & Ha & Hc & Hb).
  unfold set_fileTotalAmount, set_fileTotalItemCount; simpl.
  rewrite !Z.add_0_r, Hc, Hb.
  f_equal. unfold itemsOfCheck. unwrap. f_equal; ring.
Qed.

Lemma returnBody_advance (s : Counters) (rd : ReturnDetail) :
  canonical s ->
  returnBody s rd = advance s (itemsOfReturn rd) (rd_ItemAmount rd) 0 0 false.
Proof.
  destruct s as [i a c b cr]. unfold canonical, returnBody, advance; simpl.
  intros (Hi & Ha & Hc & Hb).
  unfold set_fileTotalAmount, set_fileTotalItemCount; simpl.
  rewrite !Z.add_0_r, Hc, Hb.
  f_equal. unfold itemsOfReturn. unwrap. f_equal; ring.
Qed.

Lemma fold_checkBody (cds : list CheckDetail) :
  forall s, canonical s ->
  fold_left checkBody cds s
  = advance s (Zsum (map itemsOfCheck cds)) (Zsum (map cd_ItemAmount cds)) 0 0 false.
Proof.
  induction cds as [|cd cds IH]; intros s Hs; simpl.
  - symmetry. now apply advance_zero.
  - rewrite checkBody_advance by assumption.
    rewrite IH by apply advance_canonical.
    rewrite advance_advance. reflexivity.
Qed.

Lemma fold_returnBody (rds : list ReturnDetail) :
  forall s, canonical s ->
  fold_left returnBody rds s
  = advance s (Zsum (map itemsOfReturn rds)) (Zsum (map rd_ItemAmount rds)) 0 0 false.
Proof.
  induction rds as [|rd rds IH]; intros s Hs; simpl.
  - symmetry. now apply advance_zero.
  - rewrite returnBody_advance by assumption.
    rewrite IH by apply advance_canonical.
    rewrite advance_advance. reflexivity.
Qed.

Lemma firstError_app (l m : list (option goerror)) :
  firstError (l ++ m)
  = match firstError l with Some err => Some err | None => firstError m end.
Proof.
  induction l as [|[err|] l IH]; simpl; auto.
Qed.

(** The loop over the bundles of a cash letter: the first failing bundle
    decides, and without one the counters advance by the sums. *)
Lemma rangeBundles_eq (bs : list Bundle) :
  forall s, canonical s ->
  rangeBundles bs s
  = match firstError (map Bundle_Validate bs) with
    | Some err => Err err
    | None =>
        Ok (advance s
              (Zsum (map itemsOfCheck (flat_map Checks bs))
               + Zsum (map itemsOfReturn (flat_map Returns bs)))
              (Zsum (map cd_ItemAmount (flat_map Checks bs))
               + Zsum (map rd_ItemAmount (flat_map Returns bs)))
              0 (2 * len bs) false)
    end.
Proof.
  induction bs as [|b bs IH]; intros s Hs.
  - simpl. f_equal. symmetry. now apply advance_zero.
  - cbn [rangeBundles map firstError flat_map].
    destruct (Bundle_Validate b) as [err|]; [reflexivity|].
    assert (E : set_bundleRecordCount s (int_add (bundleRecordCount s) 2)
                = advance s 0 0 0 2 false).
    { destruct s as [i a c d cr]. destruct Hs as (Hi & Ha & Hc & Hd).
      unfold set_bundleRecordCount, advance, int_add; simpl in *.
      rewrite !Z.add_0_r. congruence. }
    rewrite E.
    rewrite fold_checkBody by apply advance_canonical.
    rewrite fold_returnBody by apply advance_canonical.
    rewrite IH by apply advance_canonical.
    destruct (firstError (map Bundle_Validate bs)); [reflexivity|].
    rewrite !advance_advance. f_equal.
    apply advance_ext; try reflexivity.
    + rewrite !map_app, !Zsum_app. ring.
    + rewrite !map_app, !Zsum_app. ring.
    + rewrite len_cons. ring.
Qed.

Lemma allBundles_cons (cl : CashLetter) (cls : list CashLetter) :
  allBundles (cl :: cls) = (cl_Bundles cl ++ allBundles cls)%list.
Proof. reflexivity. Qed.

Lemma allChecks_cons (cl : CashLetter) (cls : list CashLetter) :
  allChecks (cl :: cls) = (flat_map Checks (cl_Bundles cl) ++ allChecks cls)%list.
Proof. unfold allChecks. rewrite allBundles_cons. apply flat_map_app. Qed.

Lemma allReturns_cons (cl : CashLetter) (cls : list CashLetter) :
  allReturns (cl :: cls) = (flat_map Returns (cl_Bundles cl) ++ allReturns cls)%list.
Proof. unfold allReturns. rewrite allBundles_cons. apply flat_map_app. Qed.

(** The loop over the cash letters. *)
Lemma rangeCashLetters_eq (cls : list CashLetter) :
  forall s, canonical s ->
  rangeCashLetters cls s
  = match firstError (validations cls) with
    | Some err => Err err
    | None =>
        Ok (advance s (sumItems cls) (sumItemAmounts cls)
              (2 * len cls) (2 * len (allBundles cls)) (hasCredit cls))
    end.
Proof.
  induction cls as [|cl cls IH]; intros s Hs.
  - simpl. f_equal. symmetry. now apply advance_zero.
  - cbn [rangeCashLetters validations flat_map firstError app].
    destruct (CashLetter_Validate cl) as [err|]; [reflexivity|].
    rewrite firstError_app.
    assert (E : (let s0 := set_cashLetterRecordCount s (int_add (cashLetterRecordCount s) 2) in
                 let s1 := set_fileTotalItemCount s0
                             (int_add (fileTotalItemCount s0) (len (GetCreditItems cl))) in
                 if (len (GetCreditItems cl) >? 0)%Z
                 then set_creditIndicator
                        (set_fileTotalItemCount s1
                           (int_add (fileTotalItemCount s1) (len (GetCreditItems cl)))) 1
                 else s1)
                = advance s (itemsOfCredit cl) 0 2 0 (len (CreditItems cl) >? 0)%Z).
    { destruct s as [i a c d cr]. destruct Hs as (Hi & Ha & Hc & Hd).
      unfold GetCreditItems, itemsOfCredit, advance, int_add; simpl in *.
      destruct (len (CreditItems cl) >? 0)%Z; simpl;
        unfold set_creditIndicator, set_fileTotalItemCount, set_cashLetterRecordCount;
        simpl; rewrite ?wrap_add_l, !Z.add_0_r, ?Z.add_assoc; congruence. }
    cbv zeta in E. cbv zeta. rewrite E. clear E.
    rewrite rangeBundles_eq by apply advance_canonical.
    destruct (firstError (map Bundle_Validate (cl_Bundles cl))); [reflexivity|].
    cbn [bind].
    rewrite IH by apply advance_canonical.
    fold (validations cls).
    destruct (firstError (validations cls)); [reflexivity|].
    rewrite !advance_advance. f_equal.
    apply advance_ext.
    + unfold sumItems. rewrite allChecks_cons, allReturns_cons.
      cbn [map Zsum fold_right]. rewrite !map_app, !Zsum_app.
      fold (Zsum (map itemsOfCredit cls)). ring.
    + unfold sumItemAmounts. rewrite allChecks_cons, allReturns_cons.
      rewrite !map_app, !Zsum_app. ring.
    + rewrite len_cons. ring.
    + rewrite allBundles_cons, len_app. ring.
    + reflexivity.
Qed.

End Loops.

Section CreateFacts.

Context {RT : RecordTypes} {CO : Collaborators}.

Lemma canonical_zero : canonical (mkCounters 0 0 0 0 0).
Proof. repeat split. Qed.

Lemma len_cons_pos {A : Type} (a : A) (s : list A) : (len (a :: s) <=? 0)%Z = false.
Proof. apply Z.leb_gt. rewrite len_cons. pose proof (len_nonneg s). lia. Qed.

(** [Create] in one equation: the header decides first, then the empty
    sequence, then the first child that does not validate; otherwise the
    control record of the tree is stored. *)
Lemma Create_eq (f : File) :
  Create (Some f)
  = match FileHeader_Validate (Header f) with
    | Some err => (Some err, Some f)
    | None =>
        match CashLetters f with
        | [] =>
            (Some (FileErrorRef
                     {| FieldName := "CashLetters";
                        Value := "0";
                        Msg := "must have []*CashLetters to be built" |}),
             Some f)
        | _ :: _ =>
            match firstError (validations (CashLetters f)) with
            | Some err => (Some err, Some f)
            | None => (None, Some (set_Control f (derivedControl (CashLetters f))))
            end
        end
    end.
Proof.
  unfold Create.
  destruct (FileHeader_Validate (Header f)) as [err|]; [reflexivity|].
  destruct (CashLetters f) as [|cl cls] eqn:Ecls; [reflexivity|].
  rewrite len_cons_pos.
  rewrite rangeCashLetters_eq by apply canonical_zero.
  destruct (firstError (validations (cl :: cls))) as [err|]; [reflexivity|].
  do 3 f_equal.
  unfold buildFileControl, derivedControl, advance; cbn [fileTotalItemCount
    fileTotalAmount cashLetterRecordCount bundleRecordCount creditIndicator].
  rewrite !Z.add_0_l.
  f_equal.
  unfold sumRecords. unwrap. f_equal; ring.
Qed.

(** What a successful [Create] tells. *)
Lemma Create_success (f f' : File) :
  Create (Some f) = (None, Some f') ->
  FileHeader_Validate (Header f) = None
  /\ CashLetters f <> []
  /\ firstError (validations (CashLetters f)) = None
  /\ f' = set_Control f (derivedControl (CashLetters f)).
Proof.
  rewrite Create_eq.
  destruct (FileHeader_Validate (Header f)); [discriminate|].
  destruct (CashLetters f) as [|cl cls]; [discriminate|].
  destruct (firstError (validations (cl :: cls))); [discriminate|].
  intros H. injection H as <-. repeat split. discriminate.
Qed.

Lemma plain_checks_items (cds : list CheckDetail) :
  forallb plainCheck cds = true ->
  Zsum (map itemsOfCheck cds) = len cds.
Proof.
  induction cds as [|cd cds IH]; [reflexivity|].
  cbn [forallb map Zsum fold_right]. intros H.
  apply andb_prop in H as [Hcd H].
  fold (Zsum (map itemsOfCheck cds)). rewrite (IH H), len_cons.
  unfold plainCheck in Hcd.
  repeat (apply andb_prop in Hcd as [Hcd ?]).
  unfold itemsOfCheck.
  repeat match goal with E : (_ =? 0)%Z = true |- _ => apply Z.eqb_eq in E end.
  lia.
Qed.

Lemma uniform_bundles_items (k : Z) (bs : list Bundle) :
  forallb (uniformBundle k) bs = true ->
  Zsum (map itemsOfCheck (flat_map Checks bs)) = len bs * k
  /\ flat_map Returns bs = [].
Proof.
  induction bs as [|b bs IH]; [split; reflexivity|].
  cbn [forallb flat_map]. intros H.
  apply andb_prop in H as [Hb H]. destruct (IH H) as [IHc IHr].
  unfold uniformBundle in Hb.
  apply andb_prop in Hb as [Hb Hplain]. apply andb_prop in Hb as [Hk Hr].
  apply Z.eqb_eq in Hk, Hr.
  split.
  - rewrite map_app, Zsum_app, IHc, (plain_checks_items _ Hplain), len_cons. lia.
  - rewrite IHr. destruct (Returns b); [reflexivity|].
    rewrite len_cons in Hr. pose proof (len_nonneg l). lia.
Qed.

Lemma uniform_cash_letters (b k : Z) (cls : list CashLetter) :
  forallb (uniformCashLetter b k) cls = true ->
  len (allBundles cls) = len cls * b
  /\ sumItems cls = len cls * b * k.
Proof.
  induction cls as [|cl cls IH]; [split; reflexivity|].
  cbn [forallb]. intros H.
  apply andb_prop in H as [Hcl H]. destruct (IH H) as [IHb IHi].
  unfold uniformCashLetter in Hcl.
  apply andb_prop in Hcl as [Hcl Hbs]. apply andb_prop in Hcl as [Hb Hcr].
  apply Z.eqb_eq in Hb, Hcr.
  destruct (uniform_bundles_items _ _ Hbs) as [Hitems Hret].
  split.
  - rewrite allBundles_cons, len_app, IHb, len_cons. lia.
  - unfold sumItems in *. rewrite allChecks_cons, allReturns_cons.
    cbn [map Zsum fold_right]. fold (Zsum (map itemsOfCredit cls)).
    rewrite !map_app, !Zsum_app, Hitems, Hret.
    unfold itemsOfCredit at 1. rewrite Hcr. cbn [Z.gtb Z.compare map Zsum fold_right].
    rewrite len_cons. lia.
Qed.

Lemma Zsum_map_nonneg {A : Type} (g : A -> Z) (l : list A) :
  (forall a, 0 <= g a) -> 0 <= Zsum (map g l).
Proof.
  intros Hg. induction l as [|a l IH]; simpl; [lia|].
  specialize (Hg a). fold (Zsum (map g l)). lia.
Qed.

Lemma sumRecords_nonneg (cls : list CashLetter) : 0 <= sumRecords cls.
Proof.
  unfold sumRecords, sumItems.
  pose proof (len_nonneg cls). pose proof (len_nonneg (allBundles cls)).
  assert (0 <= Zsum (map itemsOfCredit cls)).
  { apply Zsum_map_nonneg. intros cl. unfold itemsOfCredit.
    pose proof (len_nonneg (CreditItems cl)).
    destruct (len (CreditItems cl) >? 0)%Z; lia. }
  assert (0 <= Zsum (map itemsOfCheck (allChecks cls))).
  { apply Zsum_map_nonneg. intros cd. unfold itemsOfCheck.
    pose proof (len_nonneg (cd_CheckDetailAddendumA cd)).
    pose proof (len_nonneg (cd_CheckDetailAddendumB cd)).
    pose proof (len_nonneg (cd_CheckDetailAddendumC cd)).
    pose proof (len_nonneg (cd_ImageViewDetail cd)).
    pose proof (len_nonneg (cd_ImageViewData cd)).
    pose proof (len_nonneg (cd_ImageViewAnalysis cd)). lia. }
  assert (0 <= Zsum (map itemsOfReturn (allReturns cls))).
  { apply Zsum_map_nonneg. intros rd. unfold itemsOfReturn.
    pose proof (len_nonneg (rd_ReturnDetailAddendumA rd)).
    pose proof (len_nonneg (rd_ReturnDetailAddendumB rd)).
    pose proof (len_nonneg (rd_ReturnDetailAddendumC rd)).
    pose proof (len_nonneg (rd_ReturnDetailAddendumD rd)).
    pose proof (len_nonneg (rd_ImageViewDetail rd)).
    pose proof (len_nonneg (rd_ImageViewData rd)).
    pose proof (len_nonneg (rd_ImageViewAnalysis rd)). lia. }
  lia.
Qed.

End CreateFacts.

Section Claims.

Context {RT : RecordTypes} {CO : Collaborators}.

(** C1 (total record count).  For a File of [c] CashLetters, each of [b]
    Bundles, each of [k] CheckDetails without addenda and image views, and
    with no ReturnDetails and no CreditItems, a successful [Create] stores
    in TotalRecordCount the machine integer of [2 + 2c + 2cb + cbk]; that is
    the number itself whenever the number fits an [int]. *)
Theorem Create_total_record_count (f f' : File) (c b k : Z) :
  uniformFile c b k f = true ->
  Create (Some f) = (None, Some f') ->
  TotalRecordCount (Control f') = wrap (2 + 2 * c + 2 * c * b + c * b * k)
  /\ (2 + 2 * c + 2 * c * b + c * b * k <= int_max ->
      TotalRecordCount (Control f') = 2 + 2 * c + 2 * c * b + c * b * k).
Proof.
  intros Hu Hc.
  apply Create_success in Hc as (_ & _ & _ & ->).
  unfold uniformFile in Hu. apply andb_prop in Hu as [Hlen Hcls].
  apply Z.eqb_eq in Hlen.
  destruct (uniform_cash_letters _ _ _ Hcls) as [Hb Hi].
  assert (E : sumRecords (CashLetters f) = 2 + 2 * c + 2 * c * b + c * b * k).
  { unfold sumRecords. rewrite Hb, Hi, Hlen. ring. }
  cbn [set_Control Control derivedControl TotalRecordCount].
  rewrite E. split; [reflexivity|].
  intros Hmax. apply wrap_small. split; [|exact Hmax].
  rewrite <- E. pose proof (sumRecords_nonneg (CashLetters f)).
  unfold int_min, int_half. lia.
Qed.

(** C2 (amount summation).  After a successful [Create], FileTotalAmount
    is the sum of ItemAmount over every CheckDetail and every ReturnDetail
    of every Bundle of every CashLetter, taken in [int] arithmetic; it is
    the sum itself whenever the sum fits an [int]. *)
Theorem Create_file_total_amount (f f' : File) :
  Create (Some f) = (None, Some f') ->
  FileTotalAmount (Control f') = wrap (sumItemAmounts (CashLetters f))
  /\ (int_min <= sumItemAmounts (CashLetters f) <= int_max ->
      FileTotalAmount (Control f') = sumItemAmounts (CashLetters f)).
Proof.
  intros Hc. apply Create_success in Hc as (_ & _ & _ & ->).
  cbn [set_Control Control derivedControl FileTotalAmount].
  split; [reflexivity|]. apply wrap_small.
Qed.

(** C3, as the code has it.  [Create] on a non-nil File with a valid header
    and no CashLetters fails with the FileError naming CashLetters, with
    value "0" and message "must have []*CashLetters to be built", and the
    File, its control record with it, is as before. *)
Theorem Create_empty_cash_letters (f : File) :
  FileHeader_Validate (Header f) = None ->
  CashLetters f = [] ->
  Create (Some f)
  = (Some (FileErrorRef
             {| FieldName := "CashLetters";
                Value := "0";
                Msg := "must have []*CashLetters to be built" |}),
     Some f).
Proof.
  intros Hh Hc. rewrite Create_eq, Hh, Hc. reflexivity.
Qed.

(** C4 (adjacent-only uniqueness).  With [A] and [B] distinct and not
    empty, [Validate] rejects the CashLetterIDs [A, A, B] with the
    FileError naming CashLetterID and the message "<A> is not unique", and
    accepts [A, B, A]. *)
Theorem Validate_adjacent_duplicates (f g : File) (A B : string) :
  A <> "" -> B <> "" -> A <> B ->
  cashLetterIDs f = [A; A; B] ->
  cashLetterIDs g = [A; B; A] ->
  Validate (Some f)
  = Some (FileErrorRef
            {| FieldName := "CashLetterID";
               Value := A;
               Msg := A ++ " is not unique" |})
  /\ Validate (Some g) = None.
Proof.
  intros HA HB HAB Hf Hg.
  assert (EA : ("" =? A) = false) by (apply String.eqb_neq; congruence).
  assert (EAB : (A =? B) = false) by (apply String.eqb_neq; congruence).
  assert (EBA : (B =? A) = false) by (apply String.eqb_neq; congruence).
  unfold cashLetterIDs in Hf, Hg. unfold Validate, CashLetterIDUnique.
  split.
  - destruct (CashLetters f) as [|c1 [|c2 [|c3 [|c4 t]]]]; try discriminate.
    cbn [map] in Hf. injection Hf as H1 H2 H3.
    cbn [len List.length Z.of_nat Z.eqb rangeCashLetterIDs].
    rewrite H1, H2, EA, String.eqb_refl. reflexivity.
  - destruct (CashLetters g) as [|c1 [|c2 [|c3 [|c4 t]]]]; try discriminate.
    cbn [map] in Hg. injection Hg as H1 H2 H3.
    cbn [len List.length Z.of_nat Z.eqb rangeCashLetterIDs].
    rewrite H1, H2, H3, EA, EAB, EBA. reflexivity.
Qed.

(** C5 (child failure).  When the header validates and the first child
    that does not validate, in the order [Create] meets the cash letters
    and their bundles, returns [err], then [Create] returns that very
    [err] and the File, its control record with it, is as before. *)
Theorem Create_child_error (f : File) (before after : list (option goerror))
    (err : goerror) :
  FileHeader_Validate (Header f) = None ->
  validations (CashLetters f) = (before ++ Some err :: after)%list ->
  Forall (fun outcome => outcome = None) before ->
  Create (Some f) = (Some err, Some f)
  /\ (forall e f', Create (Some f) = (e, Some f') -> Control f' = Control f).
Proof.
  intros Hh Hv Hb.
  assert (E : firstError (validations (CashLetters f)) = Some err).
  { rewrite Hv. clear Hv. induction Hb as [|o l Ho _ IH]; [reflexivity|].
    subst o. exact IH. }
  assert (R : Create (Some f) = (Some err, Some f)).
  { rewrite Create_eq, Hh, E.
    destruct (CashLetters f) as [|cl cls]; [|reflexivity].
    destruct before; discriminate. }
  split; [exact R|].
  intros e f' H. rewrite R in H. injection H as _ <-. reflexivity.
Qed.

(** C6 (idempotence, referential transparency).  After a successful
    [Create], a second [Create] on the result succeeds and leaves it as it
    is; any File with the same CashLetters on which [Create] succeeds gets
    the same control record, and [Create] does succeed on it when its
    header is the same. *)
Theorem Create_idempotent (f f1 : File) :
  Create (Some f) = (None, Some f1) ->
  Create (Some f1) = (None, Some f1)
  /\ (forall g g1, CashLetters g = CashLetters f ->
        Create (Some g) = (None, Some g1) -> Control g1 = Control f1)
  /\ (forall g, CashLetters g = CashLetters f -> Header g = Header f ->
        exists g1, Create (Some g) = (None, Some g1) /\ Control g1 = Control f1).
Proof.
  intros Hc. apply Create_success in Hc as (Hh & Hne & Hv & ->).
  split; [|split].
  - rewrite Create_eq. cbn [set_Control Header CashLetters].
    rewrite Hh, Hv. destruct (CashLetters f); [contradiction|reflexivity].
  - intros g g1 Hg Hc. apply Create_success in Hc as (_ & _ & _ & ->).
    cbn [set_Control Control]. rewrite Hg. reflexivity.
  - intros g Hg Hhg. exists (set_Control g (derivedControl (CashLetters g))).
    rewrite Create_eq, Hhg, Hh, Hg, Hv.
    destruct (CashLetters f); [contradiction|]. split; reflexivity.
Qed.

(** C9 (empty first CashLetterID).  For a File whose first CashLetter has
    the empty CashLetterID, [Validate] fails with the FileError naming
    CashLetterID, whatever the other CashLetterIDs are. *)
Theorem Validate_empty_first_id (f : File) (cl : CashLetter) (cls : list CashLetter) :
  CashLetters f = cl :: cls ->
  CashLetterID (cl_CashLetterHeader cl) = "" ->
  Validate (Some f)
  = Some (FileErrorRef
            {| FieldName := "CashLetterID";
               Value := "";
               Msg := " is not unique" |}).
Proof.
  intros Hf Hid. unfold Validate, CashLetterIDUnique. rewrite Hf.
  replace (len (cl :: cls) =? 0)%Z with false
    by (symmetry; apply Z.eqb_neq; rewrite len_cons; pose proof (len_nonneg cls); lia).
  cbn [rangeCashLetterIDs]. rewrite Hid. reflexivity.
Qed.

(** C10 (frame).  A successful [Create] changes the Control of the File
    and nothing else: ID, Header, CashLetters and Bundles, with all the
    records in them, are the ones of before. *)
Theorem Create_frame (f f' : File) :
  Create (Some f) = (None, Some f') ->
  ID f' = ID f /\ Header f' = Header f
  /\ CashLetters f' = CashLetters f /\ Bundles f' = Bundles f.
Proof.
  intros Hc. apply Create_success in Hc as (_ & _ & _ & ->).
  repeat split.
Qed.

End Claims.

Section AdapterFacts.

Context {RT : RecordTypes} {CO : Collaborators} {EJ : EncodingJSON}.

Lemma len_zero_nil (bs : list Byte.byte) : bs <> [] -> (len bs =? 0)%Z = false.
Proof.
  intros H. destruct bs as [|b bs]; [contradiction|].
  apply Z.eqb_neq. rewrite len_cons. pose proof (len_nonneg bs). lia.
Qed.

(** A struct of one field is left as it is by an object none of whose keys
    selects the field. *)
Lemma decodeStruct_unselected {T : Type} (name : string)
    (store : json -> T -> result goerror T) (members : list (string * json))
    (target : T) :
  forallb (fun m => negb (selects name (fst m))) members = true ->
  decodeStruct [(name, store)] (JObject members) target = Ok target.
Proof.
  unfold decodeStruct.
  induction members as [|m members IH]; [reflexivity|].
  cbn [forallb fold_left]. intros H. apply andb_prop in H as [Hm H].
  assert (E : decodeMember [(name, store)] (Ok target) m = Ok target).
  { unfold decodeMember, findField, selects in *. cbn [bind find fst snd] in *.
    apply negb_true_iff, orb_false_iff in Hm as [H1 H2].
    rewrite H1, H2. reflexivity. }
  rewrite E. exact (IH H).
Qed.

Lemma noHeaderNoControl_split (members : list (string * json)) :
  noHeaderNoControl members = true ->
  forallb (fun m => negb (selects "fileHeader" (fst m))) members = true
  /\ forallb (fun m => negb (selects "fileControl" (fst m))) members = true.
Proof.
  unfold noHeaderNoControl.
  induction members as [|m members IH]; [split; reflexivity|].
  cbn [forallb]. intros H. apply andb_prop in H as [Hm H].
  apply andb_prop in Hm as [Hh Hc]. destruct (IH H) as [IH1 IH2].
  rewrite Hh, Hc, IH1, IH2. split; reflexivity.
Qed.

(** [FileFromJSON] after the three passes went through. *)
Lemma FileFromJSON_passes (bs : list Byte.byte) (a : File) :
  bs <> [] ->
  decodePasses bs = Ok a ->
  FileFromJSON bs
  = match Create (setRecordTypes (Some a)) with
    | (Some err, file) => (file, Some err)
    | (None, file) =>
        match Validate file with
        | Some err => (file, Some err)
        | None => (file, None)
        end
    end.
Proof.
  intros Hbs Hp. unfold FileFromJSON, decodePasses in *.
  rewrite (len_zero_nil bs Hbs).
  destruct (Decode File_fields bs zero_File) as [f|]; [|discriminate].
  cbn [bind] in Hp.
  cbn [set_ID set_CashLetters set_Bundles set_Header set_Control NewFile
       ID Header CashLetters Bundles Control].
  destruct (Decode fileHeader_fields bs NewFileHeader) as [h|]; [|discriminate].
  cbn [bind] in Hp.
  destruct (Decode fileControl_fields bs NewFileControl) as [c|]; [|discriminate].
  cbn [bind] in Hp. injection Hp as <-. reflexivity.
Qed.

Lemma decodePasses_control (bs : list Byte.byte) (a : File) :
  decodePasses bs = Ok a ->
  Decode fileControl_fields bs NewFileControl = Ok (Control a).
Proof.
  unfold decodePasses.
  destruct (Decode File_fields bs zero_File) as [f|]; [|discriminate].
  destruct (Decode fileHeader_fields bs NewFileHeader) as [h|]; [|discriminate].
  destruct (Decode fileControl_fields bs NewFileControl) as [c|]; [|discriminate].
  cbn [bind]. intros H. injection H as <-. reflexivity.
Qed.

(** [Create] never loses the File of a non-nil receiver. *)
Lemma Create_keeps_file (f : File) :
  exists e f', Create (Some f) = (e, Some f').
Proof.
  rewrite Create_eq.
  destruct (FileHeader_Validate (Header f)); [eauto|].
  destruct (CashLetters f); [eauto|].
  destruct (firstError (validations (c :: l))); eauto.
Qed.

End AdapterFacts.

Section AdapterClaims.

Context {RT : RecordTypes} {CO : Collaborators} {EJ : EncodingJSON}.

(** C7, as the code has it.  For the empty payload [FileFromJSON] returns
    a nil File and the text error "no JSON data provided"; a payload that
    is not empty and comes back with a nil File failed in one of the three
    decode passes, with one of the "problem reading ..." errors, none of
    which is that error. *)
Theorem FileFromJSON_no_data (bs : list Byte.byte) (e : goerror) :
  FileFromJSON [] = (None, Some (errorString "no JSON data provided"))
  /\ (bs <> [] ->
      FileFromJSON bs = (None, Some e) ->
      (exists cause,
          e = Errorf "problem reading file: %v" cause
          \/ e = Errorf "problem reading FileHeader: %v" cause
          \/ e = Errorf "problem reading FileControl: %v" cause)
      /\ e <> errorString "no JSON data provided").
Proof.
  split; [reflexivity|].
  intros Hbs H.
  assert (D : forall cause,
             Errorf "problem reading file: %v" cause <> errorString "no JSON data provided"
             /\ Errorf "problem reading FileHeader: %v" cause <> errorString "no JSON data provided"
             /\ Errorf "problem reading FileControl: %v" cause <> errorString "no JSON data provided").
  { intros cause. unfold Errorf. cbn [Sprintf Ascii.eqb Bool.eqb andb orb].
    split; [|split]; intros E; injection E as E; discriminate E. }
  unfold FileFromJSON in H. rewrite (len_zero_nil bs Hbs) in H.
  destruct (Decode File_fields bs zero_File) as [f|cause].
  2:{ injection H as <-. split.
      - exists cause. left. reflexivity.
      - exact (proj1 (D cause)). }
  destruct (Decode fileHeader_fields bs _) as [h|cause].
  2:{ injection H as <-. split.
      - exists cause. right. left. reflexivity.
      - exact (proj1 (proj2 (D cause))). }
  destruct (Decode fileControl_fields bs NewFileControl) as [c|cause].
  2:{ injection H as <-. split.
      - exists cause. right. right. reflexivity.
      - exact (proj2 (proj2 (D cause))). }
  exfalso. cbn [setRecordTypes] in H.
  match type of H with context [Create (Some ?x)] =>
    destruct (Create_keeps_file x) as (e' & f' & E); rewrite E in H
  end.
  destruct e'; [discriminate|].
  destruct (Validate (Some f')); discriminate.
Qed.


End AdapterClaims.

(** * Runs on the small instance *)

#[local] Existing Instance Sample.types.
#[local] Existing Instance Sample.collaborators.
#[local] Existing Instance Sample.encodingJSON.

(** Two cash letters of two bundles of two plain checks: 22 records. *)
Lemma Create_total_record_count_witness :
  uniformFile 2 2 2 Sample.uniform222 = true
  /\ Create (Some Sample.uniform222) = (None, Some (Sample.built Sample.uniform222))
  /\ TotalRecordCount (Control (Sample.built Sample.uniform222)) = 22.
Proof.
  assert (Hu : uniformFile 2 2 2 Sample.uniform222 = true) by reflexivity.
  assert (Hc : Create (Some Sample.uniform222)
               = (None, Some (Sample.built Sample.uniform222))) by reflexivity.
  split; [exact Hu|]. split; [exact Hc|].
  destruct (Create_total_record_count _ _ 2 2 2 Hu Hc) as [_ H].
  apply H. vm_compute. discriminate.
Defined.

(** Checks of 1000 and 250, returns of 75, 40 and 2: 1367. *)
Lemma Create_file_total_amount_witness :
  Create (Some Sample.mixed) = (None, Some (Sample.built Sample.mixed))
  /\ int_min <= sumItemAmounts (CashLetters Sample.mixed) <= int_max
  /\ FileTotalAmount (Control (Sample.built Sample.mixed)) = 1367.
Proof.
  assert (Hc : Create (Some Sample.mixed)
               = (None, Some (Sample.built Sample.mixed))) by reflexivity.
  assert (Hr : int_min <= sumItemAmounts (CashLetters Sample.mixed) <= int_max)
    by (vm_compute; split; discriminate).
  split; [exact Hc|]. split; [exact Hr|].
  destruct (Create_file_total_amount _ _ Hc) as [_ H].
  rewrite (H Hr). reflexivity.
Defined.

(** A valid header and no cash letters. *)
Lemma Create_empty_cash_letters_witness :
  FileHeader_Validate (Header (Sample.file [])) = None
  /\ CashLetters (Sample.file []) = []
  /\ Create (Some (Sample.file []))
     = (Some (FileErrorRef
                {| FieldName := "CashLetters";
                   Value := "0";
                   Msg := "must have []*CashLetters to be built" |}),
        Some (Sample.file [])).
Proof.
  split; [reflexivity|]. split; [reflexivity|].
  apply (Create_empty_cash_letters (Sample.file [])); reflexivity.
Defined.

(** C3 as it is written does not hold there: the message of the error is
    not "must have CashLetters to be built". *)
Lemma Create_empty_message_counterexample :
  FileHeader_Validate (Header (Sample.file [])) = None
  /\ CashLetters (Sample.file []) = []
  /\ ~ (exists fe,
           Create (Some (Sample.file [])) = (Some (FileErrorRef fe), Some (Sample.file []))
           /\ FieldName fe = "CashLetters"
           /\ Value fe = "0"
           /\ Msg fe = "must have CashLetters to be built").
Proof.
  split; [reflexivity|]. split; [reflexivity|].
  intros (fe & H & _ & _ & Hmsg).
  rewrite Create_eq in H. cbn in H.
  injection H as <-. cbn in Hmsg. discriminate Hmsg.
Qed.

Lemma Validate_adjacent_duplicates_witness :
  "A" <> "" /\ "B" <> "" /\ "A" <> "B"
  /\ cashLetterIDs (Sample.withIDs ["A"; "A"; "B"]) = ["A"; "A"; "B"]
  /\ cashLetterIDs (Sample.withIDs ["A"; "B"; "A"]) = ["A"; "B"; "A"]
  /\ Validate (Some (Sample.withIDs ["A"; "A"; "B"]))
     = Some (FileErrorRef
               {| FieldName := "CashLetterID";
                  Value := "A";
                  Msg := "A is not unique" |})
  /\ Validate (Some (Sample.withIDs ["A"; "B"; "A"])) = None.
Proof.
  assert (HA : "A" <> "") by discriminate.
  assert (HB : "B" <> "") by discriminate.
  assert (HAB : "A" <> "B") by discriminate.
  split; [exact HA|]. split; [exact HB|]. split; [exact HAB|].
  split; [reflexivity|]. split; [reflexivity|].
  exact (Validate_adjacent_duplicates
           (Sample.withIDs ["A"; "A"; "B"]) (Sample.withIDs ["A"; "B"; "A"])
           "A" "B" HA HB HAB eq_refl eq_refl).
Defined.

(** The first cash letter and its first bundle validate, its second bundle
    does not; the cash letter after it would not either. *)
Lemma Create_child_error_witness :
  FileHeader_Validate (Header Sample.badBundle) = None
  /\ validations (CashLetters Sample.badBundle)
     = ([None; None] ++ Some (foreignError "Bundle is not valid")
          :: [Some (foreignError "CashLetter is not valid")])%list
  /\ Forall (fun outcome : option goerror => outcome = None) [None; None]
  /\ Create (Some Sample.badBundle)
     = (Some (foreignError "Bundle is not valid"), Some Sample.badBundle).
Proof.
  assert (Hb : Forall (fun outcome : option goerror => outcome = None) [None; None])
    by (repeat constructor).
  split; [reflexivity|]. split; [reflexivity|]. split; [exact Hb|].
  exact (proj1 (Create_child_error Sample.badBundle [None; None]
                  [Some (foreignError "CashLetter is not valid")]
                  (foreignError "Bundle is not valid") eq_refl eq_refl Hb)).
Defined.

(** A second run changes nothing, and the same cash letters in another
    File get the same control record. *)
Lemma Create_idempotent_witness :
  Create (Some Sample.mixed) = (None, Some (Sample.built Sample.mixed))
  /\ CashLetters Sample.mixedAgain = CashLetters Sample.mixed
  /\ Create (Some Sample.mixedAgain) = (None, Some (Sample.built Sample.mixedAgain))
  /\ Create (Some (Sample.built Sample.mixed)) = (None, Some (Sample.built Sample.mixed))
  /\ Control (Sample.built Sample.mixedAgain) = Control (Sample.built Sample.mixed).
Proof.
  assert (Hc : Create (Some Sample.mixed)
               = (None, Some (Sample.built Sample.mixed))) by reflexivity.
  assert (Hg : Create (Some Sample.mixedAgain)
               = (None, Some (Sample.built Sample.mixedAgain))) by reflexivity.
  destruct (Create_idempotent _ _ Hc) as (H1 & H2 & _).
  split; [exact Hc|]. split; [reflexivity|]. split; [exact Hg|].
  split; [exact H1|].
  exact (H2 Sample.mixedAgain _ eq_refl Hg).
Defined.

(** A payload that is not JSON fails in the root pass. *)
Lemma FileFromJSON_no_data_witness :
  Sample.garbage <> []
  /\ FileFromJSON Sample.garbage
     = (None, Some (Errorf "problem reading file: %v" Sample.syntaxError))
  /\ FileFromJSON [] = (None, Some (errorString "no JSON data provided"))
  /\ Errorf "problem reading file: %v" Sample.syntaxError
     <> errorString "no JSON data provided".
Proof.
  assert (Hg : Sample.garbage <> []) by discriminate.
  assert (Hf : FileFromJSON Sample.garbage
               = (None, Some (Errorf "problem reading file: %v" Sample.syntaxError)))
    by reflexivity.
  destruct (FileFromJSON_no_data Sample.garbage
              (Errorf "problem reading file: %v" Sample.syntaxError)) as [H0 H1].
  split; [exact Hg|]. split; [exact Hf|]. split; [exact H0|].
  exact (proj2 (H1 Hg Hf)).
Defined.

(** C7 as it is written does not hold: the text of the error is not
    "no data provided". *)
Lemma FileFromJSON_no_data_counterexample :
  ~ (exists e, FileFromJSON [] = (None, Some e) /\ Error e = "no data provided").
Proof.
  intros (e & H & He).
  cbn in H. injection H as <-. cbn in He. discriminate He.
Qed.



(** C2 as it is written does not hold: checks of 9223372036854775807 and
    1 add up to 9223372036854775808, and FileTotalAmount is
    -9223372036854775808. *)
Lemma Create_file_total_amount_counterexample :
  Create (Some SampleEdge.overflowing)
  = (None, Some (Sample.built SampleEdge.overflowing))
  /\ sumItemAmounts (CashLetters SampleEdge.overflowing) = 9223372036854775808
  /\ FileTotalAmount (Control (Sample.built SampleEdge.overflowing))
     = -9223372036854775808
  /\ ~ (FileTotalAmount (Control (Sample.built SampleEdge.overflowing))
        = sumItemAmounts (CashLetters SampleEdge.overflowing)).
Proof.
  split; [reflexivity|]. split; [reflexivity|]. split; [reflexivity|].
  vm_compute. discriminate.
Qed.

(** The first CashLetterID is empty and no two are the same. *)
Lemma Validate_empty_first_id_witness :
  CashLetters (Sample.withIDs [""; "B"])
  = Sample.cashLetter "" true [] :: [Sample.cashLetter "B" true []]
  /\ CashLetterID (cl_CashLetterHeader (Sample.cashLetter "" true [])) = ""
  /\ Validate (Some (Sample.withIDs [""; "B"]))
     = Some (FileErrorRef
               {| FieldName := "CashLetterID";
                  Value := "";
                  Msg := " is not unique" |}).
Proof.
  split; [reflexivity|]. split; [reflexivity|].
  exact (Validate_empty_first_id (Sample.withIDs [""; "B"])
           (Sample.cashLetter "" true []) [Sample.cashLetter "B" true []]
           eq_refl eq_refl).
Defined.

Lemma Create_frame_witness :
  Create (Some Sample.mixed) = (None, Some (Sample.built Sample.mixed))
  /\ ID (Sample.built Sample.mixed) = ID Sample.mixed
  /\ Header (Sample.built Sample.mixed) = Header Sample.mixed
  /\ CashLetters (Sample.built Sample.mixed) = CashLetters Sample.mixed
  /\ Bundles (Sample.built Sample.mixed) = Bundles Sample.mixed.
Proof.
  assert (Hc : Create (Some Sample.mixed)
               = (None, Some (Sample.built Sample.mixed))) by reflexivity.
  split; [exact Hc|].
  exact (Create_frame _ _ Hc).
Defined.

(** * Further properties of the File operations *)

Lemma append_nil_r (s : string) : s ++ "" = s.
Proof. induction s as [|c s IH]; simpl; [reflexivity|]. now rewrite IH. Qed.

Section ValidateFacts.

Context {RT : RecordTypes} {CO : Collaborators}.

Lemma rangeCashLetterIDs_eq (cls : list CashLetter) :
  forall previous,
  rangeCashLetterIDs cls previous
  = match firstRepeat previous (map (fun cl => CashLetterID (cl_CashLetterHeader cl)) cls) with
    | Some id => Some (notUnique id)
    | None => None
    end.
Proof.
  induction cls as [|cl cls IH]; intros previous; [reflexivity|].
  cbn [rangeCashLetterIDs map firstRepeat].
  destruct (String.eqb previous (CashLetterID (cl_CashLetterHeader cl))) eqn:E.
  - apply String.eqb_eq in E. subst previous. reflexivity.
  - apply IH.
Qed.

Lemma firstRepeat_None_iff (ids : list string) :
  forall previous,
  firstRepeat previous ids = None <-> adjacentDistinct previous ids = true.
Proof.
  induction ids as [|id ids IH]; intros previous; cbn [firstRepeat adjacentDistinct].
  - tauto.
  - destruct (String.eqb previous id); cbn [negb andb].
    + split; discriminate.
    + apply IH.
Qed.

Lemma firstRepeat_In (ids : list string) :
  forall previous id, firstRepeat previous ids = Some id -> In id ids.
Proof.
  induction ids as [|x ids IH]; intros previous id; cbn [firstRepeat].
  - discriminate.
  - destruct (String.eqb previous x).
    + intros H. injection H as <-. now left.
    + intros H. right. exact (IH _ _ H).
Qed.

Lemma last_cons_default {A : Type} (l : list A) :
  forall x d, last (x :: l) d = last l x.
Proof.
  induction l as [|y l IH]; intros x d; [reflexivity|].
  change (last (x :: y :: l) d) with (last (y :: l) d).
  now rewrite (IH y d), (IH y x).
Qed.

Lemma firstRepeat_app_last (ids : list string) :
  forall previous id,
  firstRepeat previous (ids ++ [id])%list
  = match firstRepeat previous ids with
    | Some r => Some r
    | None => if String.eqb (last ids previous) id then Some id else None
    end.
Proof.
  induction ids as [|x ids IH]; intros previous id.
  - reflexivity.
  - cbn [app firstRepeat]. destruct (String.eqb previous x); [reflexivity|].
    rewrite IH.
    rewrite last_cons_default. reflexivity.
Qed.

Lemma adjacentDistinct_NoDup (ids : list string) :
  forall previous, NoDup (previous :: ids) -> adjacentDistinct previous ids = true.
Proof.
  induction ids as [|id ids IH]; intros previous H; [reflexivity|].
  cbn [adjacentDistinct]. inversion H as [|? ? Hnotin Hrest]; subst.
  apply andb_true_intro. split.
  - apply negb_true_iff, String.eqb_neq. intros ->. apply Hnotin. now left.
  - apply IH. exact Hrest.
Qed.

Lemma Validate_eq (f : File) :
  Validate (Some f)
  = match CashLetters f with
    | [] => Some ErrNilFile
    | _ :: _ =>
        match firstRepeat "" (cashLetterIDs f) with
        | Some id => Some (notUnique id)
        | None => None
        end
    end.
Proof.
  unfold Validate, CashLetterIDUnique, cashLetterIDs.
  destruct (CashLetters f) as [|cl cls]; [reflexivity|].
  replace (len (cl :: cls) =? 0)%Z with false
    by (symmetry; apply Z.eqb_neq; rewrite len_cons; pose proof (len_nonneg cls); lia).
  rewrite rangeCashLetterIDs_eq.
  destruct (firstRepeat "" _); reflexivity.
Qed.

(** X1.  [Validate] accepts a File exactly when it has a cash letter, the first
    CashLetterID is not empty and no CashLetterID equals the one before. *)
Theorem Validate_accepts_iff (f : File) :
  Validate (Some f) = None
  <-> CashLetters f <> [] /\ adjacentDistinct "" (cashLetterIDs f) = true.
Proof.
  rewrite Validate_eq, <- firstRepeat_None_iff.
  destruct (CashLetters f) as [|cl cls].
  - split; [discriminate|]. intros [H _]. contradiction.
  - destruct (firstRepeat "" (cashLetterIDs f)).
    + split; [discriminate|]. intros [_ H]. discriminate.
    + split; [|reflexivity]. intros _. split; [discriminate|reflexivity].
Qed.

(** X2.  The error of [Validate] on a File with cash letters is the FileError
    of the first CashLetterID that equals the one before it (the empty
    string standing before the first): that identifier is the Value, and
    the text reads "CashLetterID <id> is not unique". *)
Theorem Validate_error_shape (f : File) (e : goerror) :
  CashLetters f <> [] ->
  Validate (Some f) = Some e ->
  exists id,
    firstRepeat "" (cashLetterIDs f) = Some id
    /\ In id (cashLetterIDs f)
    /\ e = FileErrorRef {| FieldName := "CashLetterID";
                           Value := id;
                           Msg := id ++ " is not unique" |}
    /\ Error e = "CashLetterID " ++ id ++ " is not unique".
Proof.
  intros Hne H. rewrite Validate_eq in H.
  destruct (CashLetters f) as [|cl cls]; [contradiction|].
  destruct (firstRepeat "" (cashLetterIDs f)) as [id|] eqn:E; [|discriminate].
  injection H as <-. exists id.
  split; [reflexivity|]. split; [exact (firstRepeat_In _ _ _ E)|].
  split; [reflexivity|].
  unfold notUnique, Error, FileError_Error. cbn [FieldName Msg Sprintf Ascii.eqb Bool.eqb andb orb].
  cbn [append]. now rewrite append_nil_r.
Qed.

(** X3.  CashLetterIDs that are all different and not empty pass [Validate]. *)
Theorem Validate_unique_ids (f : File) :
  CashLetters f <> [] ->
  NoDup ("" :: cashLetterIDs f) ->
  Validate (Some f) = None.
Proof.
  intros Hne Hnd. rewrite Validate_eq.
  destruct (CashLetters f) as [|cl cls] eqn:E; [contradiction|].
  apply adjacentDistinct_NoDup, firstRepeat_None_iff in Hnd.
  now rewrite Hnd.
Qed.

(** X4.  A File without cash letters gets from [Validate], and from
    [CashLetterIDUnique], the error of a nil File. *)
Theorem Validate_no_cash_letters (f : File) :
  CashLetters f = [] ->
  Validate (Some f) = Validate None
  /\ CashLetterIDUnique (Some f) = Some ErrNilFile
  /\ Validate (Some f) = Some ErrNilFile.
Proof.
  intros H. unfold Validate, CashLetterIDUnique. rewrite H.
  repeat split.
Qed.

(** X5.  [Validate] after [AddCashLetter].  On a File that passes [Validate],
    or has no cash letter yet, appending a cash letter is accepted exactly
    when its CashLetterID differs from the one of the last cash letter (the
    empty string when there is none); otherwise the new identifier is
    reported. *)
Theorem Validate_after_AddCashLetter (f : File) (cl : CashLetter) :
  Validate (Some f) = None \/ CashLetters f = [] ->
  Validate (Some (fst (AddCashLetter f cl)))
  = if String.eqb (last (cashLetterIDs f) "") (CashLetterID (cl_CashLetterHeader cl))
    then Some (FileErrorRef
                 {| FieldName := "CashLetterID";
                    Value := CashLetterID (cl_CashLetterHeader cl);
                    Msg := CashLetterID (cl_CashLetterHeader cl) ++ " is not unique" |})
    else None.
Proof.
  intros H.
  assert (E : firstRepeat "" (cashLetterIDs f) = None).
  { destruct H as [H|H].
    - rewrite Validate_eq in H. destruct (CashLetters f); [discriminate|].
      destruct (firstRepeat "" (cashLetterIDs f)); [discriminate|reflexivity].
    - unfold cashLetterIDs. rewrite H. reflexivity. }
  rewrite Validate_eq.
  unfold AddCashLetter, cashLetterIDs in *.
  cbn [fst set_CashLetters CashLetters].
  rewrite map_app. cbn [map]. rewrite firstRepeat_app_last, E.
  destruct (CashLetters f ++ [cl])%list eqn:A.
  - destruct (CashLetters f); discriminate.
  - destruct (String.eqb _ _); reflexivity.
Qed.

End ValidateFacts.

Section CreateMoreFacts.

Context {RT : RecordTypes} {CO : Collaborators}.

Lemma itemsOfCredit_twice (cl : CashLetter) :
  itemsOfCredit cl = 2 * len (CreditItems cl).
Proof.
  unfold itemsOfCredit. pose proof (len_nonneg (CreditItems cl)).
  destruct (len (CreditItems cl) >? 0)%Z eqn:E; [lia|].
  rewrite Z.gtb_ltb in E. apply Z.ltb_ge in E. lia.
Qed.

Lemma sumItems_credit (cls : list CashLetter) :
  Zsum (map itemsOfCredit cls) = 2 * creditItemCount cls.
Proof.
  unfold creditItemCount.
  induction cls as [|cl cls IH]; [reflexivity|].
  cbn [map Zsum fold_right]. fold (Zsum (map itemsOfCredit cls)).
  fold (Zsum (map (fun cl => len (CreditItems cl)) cls)).
  rewrite IH, itemsOfCredit_twice. ring.
Qed.

Lemma firstError_None_iff (outcomes : list (option goerror)) :
  firstError outcomes = None <-> Forall (fun o => o = None) outcomes.
Proof.
  induction outcomes as [|[err|] l IH]; cbn [firstError].
  - split; [constructor|reflexivity].
  - split; [discriminate|]. intros H. inversion H. discriminate.
  - rewrite IH. split.
    + intros H. constructor; [reflexivity|exact H].
    + intros H. now inversion H.
Qed.

Lemma validations_valid (cls : list CashLetter) :
  Forall (fun o => o = None) (validations cls) <-> Forall validCashLetter cls.
Proof.
  unfold validations, validCashLetter.
  induction cls as [|cl cls IH]; cbn [flat_map].
  - split; constructor.
  - rewrite Forall_app, IH, Forall_cons_iff, Forall_cons_iff, Forall_map. tauto.
Qed.

Lemma hasCredit_true_iff (cls : list CashLetter) :
  hasCredit cls = true <-> Exists (fun cl => CreditItems cl <> []) cls.
Proof.
  unfold hasCredit. rewrite existsb_exists, Exists_exists.
  split; intros (cl & Hin & H); exists cl; (split; [exact Hin|]).
  - intros E. rewrite E in H. discriminate.
  - destruct (CreditItems cl) as [|x l]; [contradiction|].
    rewrite Z.gtb_ltb. apply Z.ltb_lt. rewrite len_cons.
    pose proof (len_nonneg l). lia.
Qed.

Lemma allBundles_app (l m : list CashLetter) :
  allBundles (l ++ m) = (allBundles l ++ allBundles m)%list.
Proof. apply flat_map_app. Qed.

Lemma sumItems_app (l m : list CashLetter) :
  sumItems (l ++ m) = sumItems l + sumItems m.
Proof.
  unfold sumItems, allChecks, allReturns.
  rewrite allBundles_app, !flat_map_app, !map_app, !Zsum_app. ring.
Qed.

Lemma sumItemAmounts_app (l m : list CashLetter) :
  sumItemAmounts (l ++ m) = sumItemAmounts l + sumItemAmounts m.
Proof.
  unfold sumItemAmounts, allChecks, allReturns.
  rewrite allBundles_app, !flat_map_app, !map_app, !Zsum_app. ring.
Qed.

Lemma hasCredit_app (l m : list CashLetter) :
  hasCredit (l ++ m) = (hasCredit l || hasCredit m)%bool.
Proof. apply existsb_app. Qed.

Lemma Zsum_Permutation (l m : list Z) : Permutation l m -> Zsum l = Zsum m.
Proof.
  induction 1 as [|x l m _ IH|x y l|l m n _ IH1 _ IH2]; cbn [Zsum fold_right] in *.
  - reflexivity.
  - fold (Zsum l). fold (Zsum m). now rewrite IH.
  - ring.
  - now rewrite IH1.
Qed.

Lemma derivedControl_Permutation (l m : list CashLetter) :
  Permutation l m -> derivedControl l = derivedControl m.
Proof.
  intros P.
  assert (PB : Permutation (allBundles l) (allBundles m))
    by (apply Permutation_flat_map, P).
  assert (Ei : sumItems l = sumItems m).
  { unfold sumItems, allChecks, allReturns.
    rewrite (Zsum_Permutation _ _ (Permutation_map itemsOfCredit P)).
    rewrite (Zsum_Permutation _ _
               (Permutation_map itemsOfCheck (Permutation_flat_map Checks PB))).
    rewrite (Zsum_Permutation _ _
               (Permutation_map itemsOfReturn (Permutation_flat_map Returns PB))).
    reflexivity. }
  assert (Ea : sumItemAmounts l = sumItemAmounts m).
  { unfold sumItemAmounts, allChecks, allReturns.
    rewrite (Zsum_Permutation _ _
               (Permutation_map cd_ItemAmount (Permutation_flat_map Checks PB))).
    rewrite (Zsum_Permutation _ _
               (Permutation_map rd_ItemAmount (Permutation_flat_map Returns PB))).
    reflexivity. }
  assert (El : len l = len m) by (unfold len; now rewrite (Permutation_length P)).
  assert (Eb : len (allBundles l) = len (allBundles m))
    by (unfold len; now rewrite (Permutation_length PB)).
  assert (Ec : hasCredit l = hasCredit m).
  { apply eq_true_iff_eq. rewrite !hasCredit_true_iff, !Exists_exists.
    split; intros (cl & Hin & H); exists cl; (split; [|exact H]).
    - exact (Permutation_in _ P Hin).
    - exact (Permutation_in _ (Permutation_sym P) Hin). }
  unfold derivedControl, sumRecords. now rewrite Ei, Ea, El, Eb, Ec.
Qed.

(** X6.  [Create] succeeds exactly when the header validates, there is a cash
    letter, and every cash letter and every bundle of it validates. *)
Theorem Create_succeeds_iff (f : File) :
  (exists f', Create (Some f) = (None, Some f'))
  <-> FileHeader_Validate (Header f) = None
      /\ CashLetters f <> []
      /\ Forall validCashLetter (CashLetters f).
Proof.
  rewrite <- validations_valid, <- firstError_None_iff, Create_eq.
  destruct (FileHeader_Validate (Header f)) as [err|].
  { split; [intros (f' & H); discriminate|intros (H & _); discriminate]. }
  destruct (CashLetters f) as [|cl cls].
  { split; [intros (f' & H); discriminate|intros (_ & H & _); contradiction]. }
  destruct (firstError (validations (cl :: cls))) as [err|].
  { split; [intros (f' & H); discriminate|intros (_ & _ & H); discriminate]. }
  split; [intros _; repeat split; discriminate|intros _; eexists; reflexivity].
Qed.

(** X7.  A [Create] that returns an error leaves the File as it was, whatever
    the error: nil receiver, header, empty sequence or a child. *)
Theorem Create_failure_keeps_file (p p' : option File) (e : goerror) :
  Create p = (Some e, p') -> p' = p.
Proof.
  destruct p as [f|]; [|intros H; injection H as _ <-; reflexivity].
  rewrite Create_eq.
  destruct (FileHeader_Validate (Header f)); [intros H; now injection H as _ <-|].
  destruct (CashLetters f) as [|cl cls]; [intros H; now injection H as _ <-|].
  destruct (firstError (validations (cl :: cls))); [intros H; now injection H as _ <-|].
  discriminate.
Qed.

(** X8.  TotalItemCount after a successful [Create]: every credit item counts
    twice, every CheckDetail and ReturnDetail once together with each of
    its addenda and image-view records; in [int] arithmetic, and exactly
    when the number fits. *)
Theorem Create_total_item_count (f f' : File) :
  Create (Some f) = (None, Some f') ->
  TotalItemCount (Control f')
  = wrap (2 * creditItemCount (CashLetters f)
          + Zsum (map itemsOfCheck (allChecks (CashLetters f)))
          + Zsum (map itemsOfReturn (allReturns (CashLetters f))))
  /\ (2 * creditItemCount (CashLetters f)
      + Zsum (map itemsOfCheck (allChecks (CashLetters f)))
      + Zsum (map itemsOfReturn (allReturns (CashLetters f))) <= int_max ->
      TotalItemCount (Control f')
      = 2 * creditItemCount (CashLetters f)
        + Zsum (map itemsOfCheck (allChecks (CashLetters f)))
        + Zsum (map itemsOfReturn (allReturns (CashLetters f)))).
Proof.
  intros Hc. apply Create_success in Hc as (_ & _ & _ & ->).
  cbn [set_Control Control derivedControl TotalItemCount].
  unfold sumItems. rewrite sumItems_credit.
  split; [reflexivity|]. intros Hmax. apply wrap_small. split; [|exact Hmax].
  pose proof (sumRecords_nonneg (CashLetters f)) as Hn.
  unfold sumRecords, sumItems in Hn. rewrite sumItems_credit in Hn.
  assert (0 <= creditItemCount (CashLetters f)).
  { apply Zsum_map_nonneg. intros cl. apply len_nonneg. }
  assert (0 <= Zsum (map itemsOfCheck (allChecks (CashLetters f)))).
  { apply Zsum_map_nonneg. intros cd. unfold itemsOfCheck.
    pose proof (len_nonneg (cd_CheckDetailAddendumA cd)).
    pose proof (len_nonneg (cd_CheckDetailAddendumB cd)).
    pose proof (len_nonneg (cd_CheckDetailAddendumC cd)).
    pose proof (len_nonneg (cd_ImageViewDetail cd)).
    pose proof (len_nonneg (cd_ImageViewData cd)).
    pose proof (len_nonneg (cd_ImageViewAnalysis cd)). lia. }
  assert (0 <= Zsum (map itemsOfReturn (allReturns (CashLetters f)))).
  { apply Zsum_map_nonneg. intros rd. unfold itemsOfReturn.
    pose proof (len_nonneg (rd_ReturnDetailAddendumA rd)).
    pose proof (len_nonneg (rd_ReturnDetailAddendumB rd)).
    pose proof (len_nonneg (rd_ReturnDetailAddendumC rd)).
    pose proof (len_nonneg (rd_ReturnDetailAddendumD rd)).
    pose proof (len_nonneg (rd_ImageViewDetail rd)).
    pose proof (len_nonneg (rd_ImageViewData rd)).
    pose proof (len_nonneg (rd_ImageViewAnalysis rd)). lia. }
  unfold int_min, int_half. lia.
Qed.

(** X9.  The fields of the control record agree with each other after a
    successful [Create]: TotalRecordCount is two for the file, two for each
    cash letter counted in CashLetterCount, two for each bundle, and
    TotalItemCount. *)
Theorem Create_record_count_relation (f f' : File) :
  Create (Some f) = (None, Some f') ->
  TotalRecordCount (Control f')
  = wrap (2 + 2 * CashLetterCount (Control f')
          + 2 * len (allBundles (CashLetters f))
          + TotalItemCount (Control f')).
Proof.
  intros Hc. apply Create_success in Hc as (_ & _ & _ & ->).
  cbn [set_Control Control derivedControl TotalRecordCount TotalItemCount CashLetterCount].
  unfold sumRecords. now rewrite wrap_add_r.
Qed.

(** X10.  The other fields after a successful [Create]: CashLetterCount is the
    number of cash letters, at least one; CreditTotalIndicator is 1 when
    some cash letter has a credit item and 0 when none has; the contact
    fields are blank and the rest is the one of [NewFileControl]: nothing
    of the control record of before is kept. *)
Theorem Create_control_fields (f f' : File) :
  Create (Some f) = (None, Some f') ->
  CashLetterCount (Control f') = len (CashLetters f)
  /\ 1 <= CashLetterCount (Control f')
  /\ (CreditTotalIndicator (Control f') = 1
      <-> Exists (fun cl => CreditItems cl <> []) (CashLetters f))
  /\ (CreditTotalIndicator (Control f') = 0
      <-> Forall (fun cl => CreditItems cl = []) (CashLetters f))
  /\ ImmediateOriginContactName (Control f') = ""
  /\ ImmediateOriginContactPhoneNumber (Control f') = ""
  /\ fc_rest (Control f') = fc_rest NewFileControl.
Proof.
  intros Hc. apply Create_success in Hc as (_ & Hne & _ & ->).
  cbn [set_Control Control derivedControl CashLetterCount CreditTotalIndicator
       ImmediateOriginContactName ImmediateOriginContactPhoneNumber fc_rest].
  split; [reflexivity|]. split.
  { destruct (CashLetters f) as [|cl cls]; [contradiction|].
    rewrite len_cons. pose proof (len_nonneg cls). lia. }
  pose proof (hasCredit_true_iff (CashLetters f)) as Hcr.
  split; [|split; [|repeat split]].
  - rewrite <- Hcr. destruct (hasCredit (CashLetters f)); split; auto; discriminate.
  - rewrite Forall_forall. destruct (hasCredit (CashLetters f)).
    + split; [discriminate|]. intros H. exfalso.
      destruct Hcr as [Hcr _]. specialize (Hcr eq_refl).
      apply Exists_exists in Hcr as (cl & Hin & Hcl). exact (Hcl (H cl Hin)).
    + split; [|reflexivity]. intros _ cl Hin.
      destruct (CreditItems cl) as [|x l] eqn:E; [reflexivity|]. exfalso.
      destruct Hcr as [_ Hcr]. assert (false = true); [|discriminate].
      apply Hcr, Exists_exists. exists cl. split; [exact Hin|].
      rewrite E. discriminate.
Qed.

(** X11.  [Create] after [AddCashLetter].  On a built File, appending a cash
    letter that validates with its bundles and building again succeeds;
    CashLetterCount grows by one, the totals by what the new cash letter
    holds, TotalRecordCount by two, two for each of its bundles, and its
    items. *)
Theorem Create_after_AddCashLetter (f f1 : File) (cl : CashLetter) :
  Create (Some f) = (None, Some f1) ->
  validCashLetter cl ->
  exists f2,
    Create (Some (fst (AddCashLetter f1 cl))) = (None, Some f2)
    /\ CashLetterCount (Control f2) = CashLetterCount (Control f1) + 1
    /\ TotalItemCount (Control f2)
       = wrap (TotalItemCount (Control f1) + sumItems [cl])
    /\ FileTotalAmount (Control f2)
       = wrap (FileTotalAmount (Control f1) + sumItemAmounts [cl])
    /\ TotalRecordCount (Control f2)
       = wrap (TotalRecordCount (Control f1)
               + 2 + 2 * len (cl_Bundles cl) + sumItems [cl]).
Proof.
  intros Hc Hcl. apply Create_success in Hc as (Hh & Hne & Hv & ->).
  assert (Hall : Forall validCashLetter (CashLetters f ++ [cl])).
  { apply Forall_app. split.
    - now apply validations_valid, firstError_None_iff.
    - constructor; [exact Hcl|constructor]. }
  apply validations_valid, firstError_None_iff in Hall.
  eexists. rewrite Create_eq.
  unfold AddCashLetter. cbn [fst set_Control set_CashLetters Header CashLetters].
  rewrite Hh, Hall.
  destruct (CashLetters f ++ [cl])%list as [|c0 l0] eqn:E.
  { destruct (CashLetters f); discriminate. }
  rewrite <- E. split; [reflexivity|].
  cbn [set_Control Control derivedControl CashLetterCount TotalItemCount
       FileTotalAmount TotalRecordCount].
  unfold sumRecords.
  rewrite sumItems_app, sumItemAmounts_app, allBundles_app, !len_app, !wrap_add_l.
  replace (len [cl]) with 1 by reflexivity.
  replace (allBundles [cl]) with (cl_Bundles cl)
    by (unfold allBundles; cbn [flat_map]; now rewrite app_nil_r).
  split; [reflexivity|]. split; [reflexivity|]. split; [reflexivity|].
  symmetry. rewrite <- !Z.add_assoc, wrap_add_l. f_equal. ring.
Qed.

(** X12.  [Create] after [SetHeader].  Replacing the header of a File by one
    that validates and building gives what building and then replacing the
    header gives: the control record does not depend on the header. *)
Theorem Create_after_SetHeader (f f1 : File) (h : FileHeader) :
  Create (Some f) = (None, Some f1) ->
  FileHeader_Validate h = None ->
  Create (Some (SetHeader f h)) = (None, Some (SetHeader f1 h)).
Proof.
  intros Hc Hh. apply Create_success in Hc as (_ & Hne & Hv & ->).
  rewrite Create_eq. unfold SetHeader. cbn [set_Header set_Control Header CashLetters].
  rewrite Hh, Hv. destruct (CashLetters f); [contradiction|reflexivity].
Qed.

(** X13.  The order of the cash letters does not matter to [Create]: a File
    with the same cash letters in another order and a header that
    validates is built as well, with the same control record. *)
Theorem Create_permutation (f f1 g : File) :
  Create (Some f) = (None, Some f1) ->
  Permutation (CashLetters f) (CashLetters g) ->
  FileHeader_Validate (Header g) = None ->
  exists g1, Create (Some g) = (None, Some g1) /\ Control g1 = Control f1.
Proof.
  intros Hc P Hh. apply Create_success in Hc as (_ & Hne & Hv & ->).
  assert (Hg : firstError (validations (CashLetters g)) = None).
  { apply firstError_None_iff, validations_valid.
    apply firstError_None_iff, validations_valid in Hv.
    exact (Permutation_Forall P Hv). }
  exists (set_Control g (derivedControl (CashLetters g))).
  rewrite Create_eq, Hh, Hg.
  destruct (CashLetters g) as [|c0 l0] eqn:E.
  { apply Permutation_sym, Permutation_nil in P. contradiction. }
  split; [reflexivity|]. cbn [set_Control Control].
  symmetry. apply derivedControl_Permutation. exact P.
Qed.

End CreateMoreFacts.

Section AdapterMoreFacts.

Context {RT : RecordTypes} {CO : Collaborators} {EJ : EncodingJSON}.

Lemma Create_built_again (f f1 : File) :
  Create (Some f) = (None, Some f1) -> Create (Some f1) = (None, Some f1).
Proof.
  intros Hc. apply Create_success in Hc as (Hh & Hne & Hv & ->).
  rewrite Create_eq. cbn [set_Control Header CashLetters].
  rewrite Hh, Hv. destruct (CashLetters f); [contradiction|reflexivity].
Qed.

Lemma Create_error_keeps (f f' : File) (e : goerror) :
  Create (Some f) = (Some e, Some f') -> f' = f.
Proof.
  rewrite Create_eq.
  destruct (FileHeader_Validate (Header f)); [intros H; now injection H as _ <-|].
  destruct (CashLetters f) as [|cl cls]; [intros H; now injection H as _ <-|].
  destruct (firstError (validations (cl :: cls))); [intros H; now injection H as _ <-|].
  discriminate.
Qed.

(** The three ways [FileFromJSON] goes: no data, a failed pass, or the
    three passes followed by [Create] and [Validate]. *)
Lemma FileFromJSON_cases (bs : list Byte.byte) :
  (bs = [] /\ FileFromJSON bs = (None, Some (errorString "no JSON data provided")))
  \/ (bs <> [] /\ (exists e0, decodePasses bs = Err e0)
      /\ exists e, FileFromJSON bs = (None, Some e))
  \/ (bs <> [] /\ exists a,
        decodePasses bs = Ok a
        /\ FileFromJSON bs
           = match Create (setRecordTypes (Some a)) with
             | (Some err, file) => (file, Some err)
             | (None, file) =>
                 match Validate file with
                 | Some err => (file, Some err)
                 | None => (file, None)
                 end
             end).
Proof.
  destruct bs as [|b bs]; [left; split; reflexivity|].
  right. assert (Hne : b :: bs <> []) by discriminate.
  destruct (decodePasses (b :: bs)) as [a|e0] eqn:P.
  - right. split; [exact Hne|]. exists a. split; [reflexivity|].
    exact (FileFromJSON_passes _ _ Hne P).
  - left. split; [exact Hne|]. split; [exists e0; reflexivity|].
    unfold FileFromJSON, decodePasses in *. rewrite (len_zero_nil _ Hne).
    destruct (Decode File_fields (b :: bs) zero_File) as [f|]; [|eexists; reflexivity].
    cbn [bind] in P.
    cbn [set_ID set_CashLetters set_Bundles set_Header set_Control NewFile
         ID Header CashLetters Bundles Control].
    destruct (Decode fileHeader_fields (b :: bs) NewFileHeader) as [h|];
      [|eexists; reflexivity].
    cbn [bind] in P.
    destruct (Decode fileControl_fields (b :: bs) NewFileControl) as [c|];
      [|eexists; reflexivity].
    discriminate.
Qed.

Lemma decodePasses_parts (bs : list Byte.byte) (a : File) :
  decodePasses bs = Ok a ->
  exists f0,
    Decode File_fields bs zero_File = Ok f0
    /\ ID a = ID f0 /\ CashLetters a = CashLetters f0 /\ Bundles a = Bundles f0
    /\ Decode fileHeader_fields bs NewFileHeader = Ok (Header a).
Proof.
  unfold decodePasses.
  destruct (Decode File_fields bs zero_File) as [f|]; [|discriminate].
  destruct (Decode fileHeader_fields bs NewFileHeader) as [h|]; [|discriminate].
  destruct (Decode fileControl_fields bs NewFileControl) as [c|]; [|discriminate].
  cbn [bind]. intros H. injection H as <-. exists f. repeat split.
Qed.

(** What [FileFromJSON] returns once the passes went through, [a] being
    the File they put together. *)
Lemma FileFromJSON_after_passes (bs : list Byte.byte) (a : File) :
  bs <> [] ->
  decodePasses bs = Ok a ->
  exists a',
    setRecordTypes (Some a) = Some a'
    /\ ((exists e, Create (Some a') = (Some e, Some a')
                   /\ FileFromJSON bs = (Some a', Some e))
        \/ (exists file, Create (Some a') = (None, Some file)
                         /\ FileFromJSON bs = (Some file, Validate (Some file)))).
Proof.
  intros Hne P. rewrite (FileFromJSON_passes bs a Hne P).
  cbn [setRecordTypes]. eexists. split; [reflexivity|].
  match goal with |- context [Create (Some ?x)] =>
    destruct (Create_keeps_file x) as (e & f' & E)
  end.
  destruct e as [e|].
  - left. exists e. pose proof (Create_error_keeps _ _ _ E) as K.
    subst f'. split; [exact E|]. rewrite E. reflexivity.
  - right. exists f'. split; [exact E|]. rewrite E.
    destruct (Validate (Some f')); reflexivity.
Qed.

End AdapterMoreFacts.

Section AdapterMoreClaims.

Context {RT : RecordTypes} {CO : Collaborators} {EJ : EncodingJSON}.

(** X14.  A nil error from [FileFromJSON] comes with a File, and that File is
    built and valid: [Create] on it succeeds and changes nothing, [Validate]
    accepts it, and its control record is the one derived from its cash
    letters. *)
Theorem FileFromJSON_success (bs : list Byte.byte) (fo : option File) :
  FileFromJSON bs = (fo, None) ->
  exists file,
    fo = Some file
    /\ Create (Some file) = (None, Some file)
    /\ Validate (Some file) = None
    /\ CashLetters file <> []
    /\ Control file = derivedControl (CashLetters file).
Proof.
  intros H.
  destruct (FileFromJSON_cases bs) as [[_ E]|[(_ & _ & e & E)|(Hne & a & P & _)]].
  - rewrite E in H. discriminate.
  - rewrite E in H. discriminate.
  - destruct (FileFromJSON_after_passes bs a Hne P)
      as (a' & _ & [(e & _ & E)|(file & Hc & E)]); rewrite E in H.
    + discriminate.
    + injection H as <- Hv. exists file. split; [reflexivity|].
      split; [exact (Create_built_again _ _ Hc)|]. split; [exact Hv|].
      apply Create_success in Hc as (_ & Hcls & _ & ->).
      cbn [set_Control CashLetters Control]. split; [exact Hcls|reflexivity].
Qed.

(** X15.  An error that [FileFromJSON] returns together with a File is the
    error of [Create] on that File, or, [Create] succeeding on it, the
    error of [Validate] on it: the caller can tell which by running them
    again. *)
Theorem FileFromJSON_error_with_file (bs : list Byte.byte) (file : File)
    (e : goerror) :
  FileFromJSON bs = (Some file, Some e) ->
  Create (Some file) = (Some e, Some file)
  \/ (Create (Some file) = (None, Some file) /\ Validate (Some file) = Some e).
Proof.
  intros H.
  destruct (FileFromJSON_cases bs) as [[_ E]|[(_ & _ & e' & E)|(Hne & a & P & _)]].
  - rewrite E in H. discriminate.
  - rewrite E in H. discriminate.
  - destruct (FileFromJSON_after_passes bs a Hne P)
      as (a' & _ & [(e' & Hc & E)|(file' & Hc & E)]); rewrite E in H.
    + injection H as <- <-. left. exact Hc.
    + injection H as <- Hv. right.
      split; [exact (Create_built_again _ _ Hc)|exact Hv].
Qed.

(** X16.  [FileFromJSON] returns a nil File exactly when the payload is empty
    or one of the three decode passes fails; a failure of [Create] or
    [Validate] still returns the File. *)
Theorem FileFromJSON_nil_file_iff (bs : list Byte.byte) :
  fst (FileFromJSON bs) = None
  <-> bs = [] \/ exists e, decodePasses bs = Err e.
Proof.
  destruct (FileFromJSON_cases bs) as [[Hb E]|[(_ & He & e & E)|(Hne & a & P & _)]].
  - rewrite E. split; [intros _; now left|reflexivity].
  - rewrite E. split; [intros _; now right|reflexivity].
  - destruct (FileFromJSON_after_passes bs a Hne P)
      as (a' & _ & [(e & _ & E)|(file & _ & E)]); rewrite E; cbn [fst].
    + split; [discriminate|]. intros [Hb|(e' & He)]; [contradiction|].
      rewrite P in He. discriminate.
    + split; [discriminate|]. intros [Hb|(e' & He)]; [contradiction|].
      rewrite P in He. discriminate.
Qed.

(** X17.  A payload that the decoder cannot read, or that holds a value which
    is neither an object nor null, comes back without a File and with the
    error text "problem reading file: " followed by the text of the
    decoder's error. *)
Theorem FileFromJSON_unreadable (bs : list Byte.byte) (cause : goerror) :
  bs <> [] ->
  json_read bs = Err cause
  \/ (exists v, json_read bs = Ok v /\ isStructValue v = false
                /\ json_type_error v = cause) ->
  FileFromJSON bs
  = (None, Some (errorString ("problem reading file: " ++ Error cause))).
Proof.
  intros Hne H.
  assert (D : Decode File_fields bs zero_File = Err cause).
  { unfold Decode. destruct H as [H|(v & H & Hv & <-)]; rewrite H; [reflexivity|].
    cbn [bind]. destruct v; try discriminate Hv; reflexivity. }
  unfold FileFromJSON. rewrite (len_zero_nil bs Hne), D.
  unfold Errorf. cbn [Sprintf Ascii.eqb Bool.eqb andb orb append].
  now rewrite append_nil_r.
Qed.

(** X18.  The File [FileFromJSON] returns is merged from the passes: ID, cash
    letters and bundles are those of the root pass, the header is the one
    the second pass read into the default header (not the one the root
    pass read), each gone through its [setRecordType]. *)
Theorem FileFromJSON_merge (bs : list Byte.byte) (file : File)
    (err : option goerror) :
  FileFromJSON bs = (Some file, err) ->
  exists f0 h,
    Decode File_fields bs zero_File = Ok f0
    /\ Decode fileHeader_fields bs NewFileHeader = Ok h
    /\ ID file = ID f0
    /\ Header file = FileHeader_setRecordType h
    /\ CashLetters file = map CashLetter_setRecordType (CashLetters f0)
    /\ Bundles file = map Bundle_setRecordType (Bundles f0).
Proof.
  intros H.
  destruct (FileFromJSON_cases bs) as [[_ E]|[(_ & _ & e' & E)|(Hne & a & P & _)]].
  - rewrite E in H. discriminate.
  - rewrite E in H. discriminate.
  - destruct (decodePasses_parts bs a P) as (f0 & Hroot & Hid & Hcl & Hb & Hh).
    exists f0, (Header a). split; [exact Hroot|]. split; [exact Hh|].
    destruct (FileFromJSON_after_passes bs a Hne P)
      as (a' & Ha' & [(e & _ & E)|(file' & Hc & E)]); rewrite E in H;
      cbn [setRecordTypes] in Ha'; injection Ha' as <-.
    + injection H as <- _. cbn [ID Header CashLetters Bundles].
      rewrite Hid, Hcl, Hb. repeat split.
    + injection H as <- _. apply Create_success in Hc as (_ & _ & _ & ->).
      cbn [set_Control ID Header CashLetters Bundles].
      rewrite Hid, Hcl, Hb. repeat split.
Qed.

Lemma findField_File_other (key : string) (fd : field File) :
  selects "cashLetters" key = false ->
  findField File_fields key = Some fd ->
  forall v t t', snd fd v t = Ok t' -> CashLetters t' = CashLetters t.
Proof.
  unfold selects. intros Hs. apply orb_false_iff in Hs as [Hx Hf].
  assert (K : forall (fd : field File),
             In fd File_fields -> fst fd <> "cashLetters" ->
             forall v t t', snd fd v t = Ok t' -> CashLetters t' = CashLetters t).
  { intros fd0 Hin Hn v t t'. unfold File_fields in Hin. cbn [In] in Hin.
    destruct Hin as [<-|[<-|[<-|[<-|[<-|[]]]]]]; cbn [fst snd] in *;
      try contradiction;
      match goal with |- bind ?r _ = _ -> _ => destruct r end;
      cbn [bind]; intros E; try discriminate; injection E as <-; reflexivity. }
  unfold findField. intros H.
  match type of H with
  | match ?x with _ => _ end = _ => destruct x as [fd0|] eqn:F1
  end.
  - injection H as <-. apply find_some in F1 as [Hin Heq].
    apply (K fd0 Hin). intros E. rewrite E, Hx in Heq. discriminate.
  - apply find_some in H as [Hin Heq].
    apply (K fd Hin). intros E. rewrite E, Hf in Heq. discriminate.
Qed.

Lemma decodeStruct_File_keeps_CashLetters (members : list (string * json)) :
  noCashLetters members = true ->
  forall t t',
  fold_left (decodeMember File_fields) members (Ok t) = Ok t' ->
  CashLetters t' = CashLetters t.
Proof.
  unfold noCashLetters.
  induction members as [|m members IH]; cbn [forallb fold_left].
  - intros _ t t' H. now injection H as <-.
  - intros H t t' F. apply andb_prop in H as [Hm H].
    apply negb_true_iff in Hm.
    unfold decodeMember at 2 in F. cbn [bind] in F.
    destruct (findField File_fields (fst m)) as [fd|] eqn:E.
    + destruct (snd fd (snd m) t) as [t1|e1] eqn:S.
      * rewrite (IH H _ _ F). exact (findField_File_other _ _ Hm E _ _ _ S).
      * exfalso. clear -F. induction members as [|m' ms IHm]; [discriminate|].
        apply IHm. exact F.
    + exact (IH H _ _ F).
Qed.

(** X19.  A payload object without a key for cashLetters never comes back
    without error, and when a File comes back it has no cash letters. *)
Theorem FileFromJSON_without_cash_letters (bs : list Byte.byte)
    (members : list (string * json)) :
  bs <> [] ->
  json_read bs = Ok (JObject members) ->
  noCashLetters members = true ->
  (exists e, snd (FileFromJSON bs) = Some e)
  /\ (forall file, fst (FileFromJSON bs) = Some file -> CashLetters file = []).
Proof.
  intros Hne Hread Hkeys.
  destruct (FileFromJSON_cases bs) as [[Hb _]|[(_ & _ & e & E)|(_ & a & P & _)]].
  - contradiction.
  - rewrite E. split; [exists e; reflexivity|]. discriminate.
  - destruct (decodePasses_parts bs a P) as (f0 & Hroot & _ & Hcl & _ & _).
    assert (E0 : CashLetters a = []).
    { rewrite Hcl. unfold Decode in Hroot. rewrite Hread in Hroot.
      cbn [bind decodeStruct] in Hroot.
      exact (decodeStruct_File_keeps_CashLetters members Hkeys _ _ Hroot). }
    rewrite (FileFromJSON_passes bs a Hne P).
    cbn [setRecordTypes]. rewrite Create_eq.
    cbn [Header CashLetters]. rewrite E0. cbn [map].
    destruct (FileHeader_Validate (FileHeader_setRecordType (Header a)));
      cbn [fst snd]; (split; [eexists; reflexivity|]);
      intros file H; injection H as <-; reflexivity.
Qed.

(** X20.  [setRecordTypes] twice is [setRecordTypes] once when each
    [setRecordType] is so, and it keeps the ID and the number of cash
    letters and bundles; a nil File stays nil. *)
Theorem setRecordTypes_idempotent (p : option File) :
  (forall h, FileHeader_setRecordType (FileHeader_setRecordType h)
             = FileHeader_setRecordType h) ->
  (forall cl, CashLetter_setRecordType (CashLetter_setRecordType cl)
              = CashLetter_setRecordType cl) ->
  (forall b, Bundle_setRecordType (Bundle_setRecordType b)
             = Bundle_setRecordType b) ->
  (forall fc, FileControl_setRecordType (FileControl_setRecordType fc)
              = FileControl_setRecordType fc) ->
  setRecordTypes (setRecordTypes p) = setRecordTypes p
  /\ (p = None <-> setRecordTypes p = None)
  /\ (forall f f', p = Some f -> setRecordTypes p = Some f' ->
        ID f' = ID f
        /\ len (CashLetters f') = len (CashLetters f)
        /\ len (Bundles f') = len (Bundles f)).
Proof.
  intros Hh Hcl Hb Hfc. destruct p as [f|].
  - split; [|split].
    + cbn [setRecordTypes ID Header CashLetters Bundles Control].
      rewrite Hh, Hfc, !map_map.
      rewrite (map_ext _ _ Hcl), (map_ext _ _ Hb). reflexivity.
    + split; discriminate.
    + intros f0 f' E H. injection E as <-. cbn [setRecordTypes] in H.
      injection H as <-. cbn [ID CashLetters Bundles]. unfold len.
      rewrite !length_map. repeat split.
  - split; [reflexivity|]. split; [split; reflexivity|]. discriminate.
Qed.

End AdapterMoreClaims.

(** * Runs of the further properties *)

Lemma Validate_accepts_iff_witness :
  CashLetters (Sample.withIDs ["A"; "B"; "A"]) <> []
  /\ adjacentDistinct "" (cashLetterIDs (Sample.withIDs ["A"; "B"; "A"])) = true
  /\ Validate (Some (Sample.withIDs ["A"; "B"; "A"])) = None.
Proof.
  assert (H1 : CashLetters (Sample.withIDs ["A"; "B"; "A"]) <> []) by discriminate.
  assert (H2 : adjacentDistinct "" (cashLetterIDs (Sample.withIDs ["A"; "B"; "A"])) = true)
    by reflexivity.
  split; [exact H1|]. split; [exact H2|].
  exact (proj2 (Validate_accepts_iff (Sample.withIDs ["A"; "B"; "A"])) (conj H1 H2)).
Defined.

(** The third identifier repeats the second. *)
Lemma Validate_error_shape_witness :
  CashLetters (Sample.withIDs ["A"; "B"; "B"]) <> []
  /\ Validate (Some (Sample.withIDs ["A"; "B"; "B"])) = Some (notUnique "B")
  /\ exists id,
       firstRepeat "" (cashLetterIDs (Sample.withIDs ["A"; "B"; "B"])) = Some id
       /\ In id (cashLetterIDs (Sample.withIDs ["A"; "B"; "B"]))
       /\ notUnique "B"
          = FileErrorRef {| FieldName := "CashLetterID";
                            Value := id;
                            Msg := id ++ " is not unique" |}
       /\ Error (notUnique "B") = "CashLetterID " ++ id ++ " is not unique".
Proof.
  assert (H1 : CashLetters (Sample.withIDs ["A"; "B"; "B"]) <> []) by discriminate.
  assert (H2 : Validate (Some (Sample.withIDs ["A"; "B"; "B"])) = Some (notUnique "B"))
    by reflexivity.
  split; [exact H1|]. split; [exact H2|].
  exact (Validate_error_shape (Sample.withIDs ["A"; "B"; "B"]) (notUnique "B") H1 H2).
Defined.

Lemma Validate_unique_ids_witness :
  CashLetters (Sample.withIDs ["A"; "B"; "C"]) <> []
  /\ NoDup ("" :: cashLetterIDs (Sample.withIDs ["A"; "B"; "C"]))
  /\ Validate (Some (Sample.withIDs ["A"; "B"; "C"])) = None.
Proof.
  assert (H1 : CashLetters (Sample.withIDs ["A"; "B"; "C"]) <> []) by discriminate.
  assert (H2 : NoDup ("" :: cashLetterIDs (Sample.withIDs ["A"; "B"; "C"]))).
  { change (NoDup [""; "A"; "B"; "C"]).
    constructor; [intros [H|[H|[H|[]]]]; discriminate H|].
    constructor; [intros [H|[H|[]]]; discriminate H|].
    constructor; [intros [H|[]]; discriminate H|].
    constructor; [intros []|constructor]. }
  split; [exact H1|]. split; [exact H2|].
  exact (Validate_unique_ids (Sample.withIDs ["A"; "B"; "C"]) H1 H2).
Defined.

Lemma Validate_no_cash_letters_witness :
  CashLetters (Sample.file []) = []
  /\ Validate (Some (Sample.file [])) = Some ErrNilFile.
Proof.
  split; [reflexivity|].
  exact (proj2 (proj2 (Validate_no_cash_letters (Sample.file []) eq_refl))).
Defined.

(** A second cash letter "B" after "A", "B" is reported; "C" would pass. *)
Lemma Validate_after_AddCashLetter_witness :
  Validate (Some (Sample.withIDs ["A"; "B"])) = None
  /\ Validate (Some (fst (AddCashLetter (Sample.withIDs ["A"; "B"])
                            (Sample.cashLetter "B" true []))))
     = Some (notUnique "B")
  /\ Validate (Some (fst (AddCashLetter (Sample.withIDs ["A"; "B"])
                            (Sample.cashLetter "C" true []))))
     = None.
Proof.
  assert (H : Validate (Some (Sample.withIDs ["A"; "B"])) = None) by reflexivity.
  split; [exact H|]. split.
  - exact (Validate_after_AddCashLetter (Sample.withIDs ["A"; "B"])
             (Sample.cashLetter "B" true []) (or_introl H)).
  - exact (Validate_after_AddCashLetter (Sample.withIDs ["A"; "B"])
             (Sample.cashLetter "C" true []) (or_introl H)).
Defined.

Lemma Create_succeeds_iff_witness :
  FileHeader_Validate (Header Sample.mixed) = None
  /\ CashLetters Sample.mixed <> []
  /\ Forall validCashLetter (CashLetters Sample.mixed)
  /\ exists f', Create (Some Sample.mixed) = (None, Some f').
Proof.
  assert (H1 : FileHeader_Validate (Header Sample.mixed) = None) by reflexivity.
  assert (H2 : CashLetters Sample.mixed <> []) by discriminate.
  assert (H3 : Forall validCashLetter (CashLetters Sample.mixed)).
  { repeat constructor. }
  split; [exact H1|]. split; [exact H2|]. split; [exact H3|].
  exact (proj2 (Create_succeeds_iff Sample.mixed) (conj H1 (conj H2 H3))).
Defined.

Lemma Create_failure_keeps_file_witness :
  Create (Some Sample.badBundle)
  = (Some (foreignError "Bundle is not valid"), Some Sample.badBundle)
  /\ Some Sample.badBundle = Some Sample.badBundle.
Proof.
  assert (H : Create (Some Sample.badBundle)
              = (Some (foreignError "Bundle is not valid"), Some Sample.badBundle))
    by reflexivity.
  split; [exact H|].
  exact (Create_failure_keeps_file _ _ _ H).
Defined.

(** Two credit items count 4, the check with three attached records 4, the
    return with one addendum 2, the plain check 1. *)
Lemma Create_total_item_count_witness :
  Create (Some SampleRuns.rich) = (None, Some (Sample.built SampleRuns.rich))
  /\ creditItemCount (CashLetters SampleRuns.rich) = 2
  /\ TotalItemCount (Control (Sample.built SampleRuns.rich)) = 11.
Proof.
  assert (Hc : Create (Some SampleRuns.rich)
               = (None, Some (Sample.built SampleRuns.rich))) by reflexivity.
  split; [exact Hc|]. split; [reflexivity|].
  destruct (Create_total_item_count _ _ Hc) as [_ H].
  rewrite H; [reflexivity|]. vm_compute. discriminate.
Defined.

Lemma Create_record_count_relation_witness :
  Create (Some SampleRuns.rich) = (None, Some (Sample.built SampleRuns.rich))
  /\ TotalRecordCount (Control (Sample.built SampleRuns.rich)) = 21.
Proof.
  assert (Hc : Create (Some SampleRuns.rich)
               = (None, Some (Sample.built SampleRuns.rich))) by reflexivity.
  split; [exact Hc|].
  rewrite (Create_record_count_relation _ _ Hc). reflexivity.
Defined.

Lemma Create_control_fields_witness :
  Create (Some SampleRuns.rich) = (None, Some (Sample.built SampleRuns.rich))
  /\ CashLetterCount (Control (Sample.built SampleRuns.rich)) = 2
  /\ Exists (fun cl => CreditItems cl <> []) (CashLetters SampleRuns.rich)
  /\ CreditTotalIndicator (Control (Sample.built SampleRuns.rich)) = 1.
Proof.
  assert (Hc : Create (Some SampleRuns.rich)
               = (None, Some (Sample.built SampleRuns.rich))) by reflexivity.
  assert (He : Exists (fun cl => CreditItems cl <> []) (CashLetters SampleRuns.rich)).
  { left. discriminate. }
  destruct (Create_control_fields _ _ Hc) as (H1 & _ & H3 & _).
  split; [exact Hc|]. split; [rewrite H1; reflexivity|]. split; [exact He|].
  exact (proj2 H3 He).
Defined.

(** A third cash letter of two bundles, three checks and two returns
    worth 36: four records for the bundles, five items and one of them
    with nothing attached. *)
Lemma Create_after_AddCashLetter_witness :
  Create (Some Sample.mixed) = (None, Some (Sample.built Sample.mixed))
  /\ validCashLetter SampleRuns.extra
  /\ exists f2,
       Create (Some (fst (AddCashLetter (Sample.built Sample.mixed) SampleRuns.extra)))
       = (None, Some f2)
       /\ CashLetterCount (Control f2) = 3
       /\ TotalItemCount (Control f2) = 9
       /\ FileTotalAmount (Control f2) = 1403
       /\ TotalRecordCount (Control f2) = 25.
Proof.
  assert (Hc : Create (Some Sample.mixed)
               = (None, Some (Sample.built Sample.mixed))) by reflexivity.
  assert (Hv : validCashLetter SampleRuns.extra) by (repeat constructor).
  split; [exact Hc|]. split; [exact Hv|].
  destruct (Create_after_AddCashLetter _ _ SampleRuns.extra Hc Hv)
    as (f2 & H0 & H1 & H2 & H3 & H4).
  exists f2. split; [exact H0|].
  split; [rewrite H1; reflexivity|]. split; [rewrite H2; reflexivity|].
  split; [rewrite H3; reflexivity|rewrite H4; reflexivity].
Defined.

Lemma Create_after_SetHeader_witness :
  Create (Some Sample.mixed) = (None, Some (Sample.built Sample.mixed))
  /\ FileHeader_Validate ("40" : @FileHeader Sample.types) = None
  /\ Create (Some (SetHeader Sample.mixed ("40" : @FileHeader Sample.types)))
     = (None, Some (SetHeader (Sample.built Sample.mixed) ("40" : @FileHeader Sample.types))).
Proof.
  assert (Hc : Create (Some Sample.mixed)
               = (None, Some (Sample.built Sample.mixed))) by reflexivity.
  split; [exact Hc|]. split; [reflexivity|].
  exact (Create_after_SetHeader _ _ ("40" : @FileHeader Sample.types) Hc eq_refl).
Defined.

Lemma Create_permutation_witness :
  Create (Some Sample.mixed) = (None, Some (Sample.built Sample.mixed))
  /\ Permutation (CashLetters Sample.mixed) (CashLetters SampleRuns.mixedReversed)
  /\ FileHeader_Validate (Header SampleRuns.mixedReversed) = None
  /\ exists g1,
       Create (Some SampleRuns.mixedReversed) = (None, Some g1)
       /\ Control g1 = Control (Sample.built Sample.mixed).
Proof.
  assert (Hc : Create (Some Sample.mixed)
               = (None, Some (Sample.built Sample.mixed))) by reflexivity.
  assert (Hp : Permutation (CashLetters Sample.mixed)
                 (CashLetters SampleRuns.mixedReversed))
    by apply Permutation_rev.
  split; [exact Hc|]. split; [exact Hp|]. split; [reflexivity|].
  exact (Create_permutation _ _ SampleRuns.mixedReversed Hc Hp eq_refl).
Defined.

Lemma FileFromJSON_success_witness :
  FileFromJSON (EJ := SampleRuns.encodingJSON) Sample.withControl
  = (Some (SampleRuns.decodedFile Sample.withControl), None)
  /\ Create (Some (SampleRuns.decodedFile Sample.withControl))
     = (None, Some (SampleRuns.decodedFile Sample.withControl))
  /\ Validate (Some (SampleRuns.decodedFile Sample.withControl)) = None.
Proof.
  assert (H : FileFromJSON (EJ := SampleRuns.encodingJSON) Sample.withControl
              = (Some (SampleRuns.decodedFile Sample.withControl), None))
    by reflexivity.
  split; [exact H|].
  destruct (FileFromJSON_success (EJ := SampleRuns.encodingJSON) _ _ H)
    as (file & E & Hc & Hv & _).
  injection E as <-. split; [exact Hc|exact Hv].
Defined.

(** Two cash letters "CL1": built, then refused by [Validate]. *)
Lemma FileFromJSON_error_with_file_witness :
  FileFromJSON (EJ := SampleRuns.encodingJSON) SampleRuns.repeated
  = (Some (SampleRuns.decodedFile SampleRuns.repeated), Some (notUnique "CL1"))
  /\ (Create (Some (SampleRuns.decodedFile SampleRuns.repeated))
      = (Some (notUnique "CL1"), Some (SampleRuns.decodedFile SampleRuns.repeated))
      \/ (Create (Some (SampleRuns.decodedFile SampleRuns.repeated))
          = (None, Some (SampleRuns.decodedFile SampleRuns.repeated))
          /\ Validate (Some (SampleRuns.decodedFile SampleRuns.repeated))
             = Some (notUnique "CL1"))).
Proof.
  assert (H : FileFromJSON (EJ := SampleRuns.encodingJSON) SampleRuns.repeated
              = (Some (SampleRuns.decodedFile SampleRuns.repeated),
                 Some (notUnique "CL1")))
    by reflexivity.
  split; [exact H|].
  exact (FileFromJSON_error_with_file (EJ := SampleRuns.encodingJSON) _ _ _ H).
Defined.

Lemma FileFromJSON_nil_file_iff_witness :
  (exists e, decodePasses (EJ := SampleRuns.encodingJSON) Sample.garbage = Err e)
  /\ fst (FileFromJSON (EJ := SampleRuns.encodingJSON) Sample.garbage) = None.
Proof.
  assert (H : exists e, decodePasses (EJ := SampleRuns.encodingJSON) Sample.garbage = Err e)
    by (eexists; reflexivity).
  split; [exact H|].
  exact (proj2 (FileFromJSON_nil_file_iff (EJ := SampleRuns.encodingJSON) Sample.garbage)
           (or_intror H)).
Defined.

(** An array is read but does not go into a File. *)
Lemma FileFromJSON_unreadable_witness :
  SampleRuns.anArray <> []
  /\ json_read (EncodingJSON := SampleRuns.encodingJSON) SampleRuns.anArray
     = Ok (JArray [])
  /\ FileFromJSON (EJ := SampleRuns.encodingJSON) SampleRuns.anArray
     = (None, Some (errorString "problem reading file: json: cannot unmarshal value")).
Proof.
  assert (H1 : SampleRuns.anArray <> []) by discriminate.
  assert (H2 : json_read (EncodingJSON := SampleRuns.encodingJSON) SampleRuns.anArray
               = Ok (JArray [])) by reflexivity.
  split; [exact H1|]. split; [exact H2|].
  exact (FileFromJSON_unreadable (EJ := SampleRuns.encodingJSON)
           SampleRuns.anArray Sample.typeError H1
           (or_intror (ex_intro _ (JArray []) (conj H2 (conj eq_refl eq_refl))))).
Defined.

Lemma FileFromJSON_merge_witness :
  FileFromJSON (EJ := SampleRuns.encodingJSON) Sample.withControl
  = (Some (SampleRuns.decodedFile Sample.withControl), None)
  /\ exists f0 h,
       Decode (EJ := SampleRuns.encodingJSON) File_fields Sample.withControl zero_File
       = Ok f0
       /\ Decode (EJ := SampleRuns.encodingJSON) fileHeader_fields Sample.withControl
            NewFileHeader = Ok h
       /\ ID (SampleRuns.decodedFile Sample.withControl) = ID f0
       /\ Header (SampleRuns.decodedFile Sample.withControl)
          = FileHeader_setRecordType h
       /\ CashLetters (SampleRuns.decodedFile Sample.withControl)
          = map CashLetter_setRecordType (CashLetters f0)
       /\ Bundles (SampleRuns.decodedFile Sample.withControl)
          = map Bundle_setRecordType (Bundles f0).
Proof.
  assert (H : FileFromJSON (EJ := SampleRuns.encodingJSON) Sample.withControl
              = (Some (SampleRuns.decodedFile Sample.withControl), None))
    by reflexivity.
  split; [exact H|].
  exact (FileFromJSON_merge (EJ := SampleRuns.encodingJSON) _ _ _ H).
Defined.

(** A header and a key no field answers to. *)
Lemma FileFromJSON_without_cash_letters_witness :
  SampleRuns.headerOnly <> []
  /\ json_read (EncodingJSON := SampleRuns.encodingJSON) SampleRuns.headerOnly
     = Ok SampleRuns.headerOnlyValue
  /\ noCashLetters (EJ := SampleRuns.encodingJSON)
       [("fileHeader", JObject [("standardLevel", JString "35")]);
        ("note", JString "none")] = true
  /\ (exists e, snd (FileFromJSON (EJ := SampleRuns.encodingJSON) SampleRuns.headerOnly)
                = Some e)
  /\ CashLetters (SampleRuns.decodedFile SampleRuns.headerOnly) = [].
Proof.
  assert (H1 : SampleRuns.headerOnly <> []) by discriminate.
  assert (H2 : json_read (EncodingJSON := SampleRuns.encodingJSON) SampleRuns.headerOnly
               = Ok SampleRuns.headerOnlyValue) by reflexivity.
  assert (H3 : noCashLetters (EJ := SampleRuns.encodingJSON)
                 [("fileHeader", JObject [("standardLevel", JString "35")]);
                  ("note", JString "none")] = true) by reflexivity.
  destruct (FileFromJSON_without_cash_letters (EJ := SampleRuns.encodingJSON)
              SampleRuns.headerOnly _ H1 H2 H3) as [Ha Hb].
  split; [exact H1|]. split; [exact H2|]. split; [exact H3|]. split; [exact Ha|].
  exact (Hb (SampleRuns.decodedFile SampleRuns.headerOnly) eq_refl).
Defined.

Lemma setRecordTypes_idempotent_witness :
  setRecordTypes (setRecordTypes (Some Sample.mixed)) = setRecordTypes (Some Sample.mixed).
Proof.
  refine (proj1 (setRecordTypes_idempotent (Some Sample.mixed) _ _ _ _));
    intros; reflexivity.
Defined.
